(** * PyMODA: the multiprocessing orchestration code

    A shallow embedding of the parts of PyMODA that farm analysis jobs out
    to worker processes, collect their result tuples and tear process
    trees down:

    - [maths/multiprocessing/mp_utils.py]: [terminate_tree];
    - [gui/windows/ridgeextraction/REPresenter.py]: the result handlers
      [on_ridge_completed] and [on_filter_completed];
    - [maths/algorithms/multiprocessing/bayesian_inference.py] and
      [bispectrum_analysis.py]: the compute functions run by the workers.

    Python statements run in a small state-and-exception monad [Py S]:
    the state [S] is whatever the code mutates (the record of signals sent,
    the presenter, the result queue, a dict), and a computation either
    returns a value or raises. *)

From stdpp Require Import base option list gmap strings.
From Stdlib Require Import ZArith Lia.

Set Warnings "-register-all".
Open Scope Z_scope.

(** ** Python exceptions and the monad of statements *)

Inductive exn : Type :=
| NoSuchProcess   (* psutil.NoSuchProcess *)
| AttributeError
| TypeError
| KeyError
| EngineError.    (* anything raised inside the packaged numerical engine *)

Module Py.

Definition M (S A : Type) : Type := S -> S * (exn + A).

Definition ret {S A} (a : A) : M S A := fun s => (s, inr a).

Definition raise {S A} (e : exn) : M S A := fun s => (s, inl e).

Definition bind {S A B} (m : M S A) (k : A -> M S B) : M S B :=
  fun s =>
    match m s with
    | (s', inl e) => (s', inl e)
    | (s', inr a) => k a s'
    end.

Definition get {S} : M S S := fun s => (s, inr s).

Definition modify {S} (f : S -> S) : M S unit := fun s => (f s, inr tt).

(** A pure call that may raise. *)
Definition call {S A} (r : exn + A) : M S A := fun s => (s, r).

(** [try: body except <caught>: handler]. [caught e] tells whether the
    except clause names [e]; an exception it does not name goes on. *)
Definition try_except {S A}
    (body : M S A) (caught : exn -> bool) (handler : M S A) : M S A :=
  fun s =>
    match body s with
    | (s', inl e) => if caught e then handler s' else (s', inl e)
    | (s', inr a) => (s', inr a)
    end.

(** [try: body finally: final]. The final block runs whatever the body
    did; the body's exception, if any, is re-raised afterwards unless the
    final block raises itself. *)
Definition try_finally {S A} (body : M S A) (final : M S unit) : M S A :=
  fun s =>
    match body s with
    | (s', r) =>
        match final s' with
        | (s'', inl e') => (s'', inl e')
        | (s'', inr _) => (s'', r)
        end
    end.

(** [for x in xs: body x]. *)
Fixpoint for_each {S A} (xs : list A) (body : A -> M S unit) : M S unit :=
  match xs with
  | [] => ret tt
  | x :: xs' => bind (body x) (fun _ => for_each xs' body)
  end.

End Py.

Declare Scope py_scope.
Delimit Scope py_scope with py.
Notation "x <- m ;; k" := (Py.bind m (fun x => k))
  (at level 100, m at next level, right associativity) : py_scope.
Notation "m ;;; k" := (Py.bind m (fun _ => k))
  (at level 100, right associativity) : py_scope.

(** ** mp_utils.py: terminating a process tree *)

Module MpUtils.

(** The processes alive when psutil enumerates them: a forest, each
    node a process with the processes it spawned. *)
Inductive ProcTree : Type :=
| PNode (pid : Z) (kids : list ProcTree).

Definition tree_pid (t : ProcTree) : Z :=
  match t with PNode p _ => p end.

Definition tree_kids (t : ProcTree) : list ProcTree :=
  match t with PNode _ ks => ks end.

(** The number of processes of a tree. *)
Fixpoint tree_size (t : ProcTree) : nat :=
  match t with
  | PNode _ ks => S (list_sum (map tree_size ks))
  end.

(** The loop of [children(recursive=True)] in psutil. It keeps a stack
    of the processes whose children are still to be listed, which starts
    with the process itself; each turn pops the process pushed last,
    appends its children to the result and pushes them, in the order of
    the process table. [stack] has the top of the stack first, so the
    children pushed in turn appear reversed; [fuel] bounds the number
    of turns.

    psutil also records the pids it has popped and skips one that it
    meets again, which happens only when the process table has a cycle;
    a tree has none, and the test is left out. *)
Fixpoint children_walk (fuel : nat) (stack : list ProcTree) (ret : list Z)
  : list Z :=
  match fuel, stack with
  | S fuel', PNode _ ks :: rest =>
      children_walk fuel' (rev ks ++ rest) (ret ++ map tree_pid ks)
  | _, _ => ret
  end.

(** [psutil.Process(pid).children(recursive=True)]: the loop takes one
    turn for each process of the tree. The direct children come first,
    then the descendants, those of the child listed last before those
    of the others. *)
Definition children_recursive (t : ProcTree) : list Z :=
  children_walk (tree_size t) [t] [].


(** Looking a pid up among the live processes. *)
Fixpoint find_in_tree (p : Z) (t : ProcTree) : option ProcTree :=
  if tree_pid t =? p then Some t
  else
    match t with
    | PNode _ ks =>
        (fix over (l : list ProcTree) : option ProcTree :=
           match l with
           | [] => None
           | k :: l' =>
               match find_in_tree p k with
               | Some r => Some r
               | None => over l'
               end
           end) ks
    end.

Fixpoint find_proc (p : Z) (os : list ProcTree) : option ProcTree :=
  match os with
  | [] => None
  | t :: os' =>
      match find_in_tree p t with
      | Some r => Some r
      | None => find_proc p os'
      end
  end.


(** The handle of a worker: a started [multiprocess.Process]. *)
Record Process : Type := { pid : Z }.

(** What [terminate_tree] does to the outside world: the termination
    requests it sends, oldest first. *)
Inductive request : Type :=
| ChildTerminate (pid : Z)     (* child.terminate() on a psutil process *)
| ProcessTerminate (pid : Z).  (* process.terminate() on the handle *)

Section TerminateTree.

(** The live processes when [psutil.Process(pid)] is built and its
    children are listed. *)
Variable os : list ProcTree.

(** Processes may exit on their own while the loop runs: [gone c]
    holds when [c], listed as a descendant, is no longer there when
    [terminate] is called on it. *)
Variable gone : Z -> bool.

(** [psutil.Process(pid)] raises [NoSuchProcess] for a pid that is not
    running. *)
Definition psutil_Process (p : Z) : Py.M (list request) ProcTree :=
  match find_proc p os with
  | Some t => Py.ret t
  | None => Py.raise NoSuchProcess
  end.

(** [child.terminate()] of psutil: the request is sent, or
    [NoSuchProcess] is raised when the child has exited. *)
Definition psutil_terminate (c : Z) : Py.M (list request) unit :=
  if gone c then Py.raise NoSuchProcess
  else Py.modify (fun tr => tr ++ [ChildTerminate c]).

(** [process.terminate()] of multiprocess: asks the handle's process
    to terminate; it does not raise for a process that has exited. *)
Definition process_terminate (process : Process) : Py.M (list request) unit :=
  Py.modify (fun tr => tr ++ [ProcessTerminate (pid process)]).

Definition is_NoSuchProcess (e : exn) : bool :=
  match e with NoSuchProcess => true | _ => false end.

Definition terminate_tree (process : Process) : Py.M (list request) unit :=
  Py.try_finally
    (Py.try_except
       (let pid := pid process in
        (p <- psutil_Process pid ;;
         Py.for_each (children_recursive p)
           (fun child => psutil_terminate child))%py)
       is_NoSuchProcess
       (Py.ret tt))
    (process_terminate process).

(** The requests sent by one call, and how the call ended. *)
Definition requests_of (process : Process) : list request :=
  fst (terminate_tree process []).

Definition outcome_of (process : Process) : exn + unit :=
  snd (terminate_tree process []).

End TerminateTree.



End MpUtils.

(** ** The signals and their output data *)

Module Signals.

Section Data.

(** Arrays, floats and the other values that the orchestration code
    moves around without looking inside. *)
Variable PyObj : Type.

(** Modelled from the spec: the class [TFOutputData] is not under src.
    The handlers assign its attributes and call [set_ridge_data],
    [has_ridge_data], [set_band_data] and [has_band_data] on it. Here
    the attributes are the object's attribute dictionary, the ridge and
    band results are kept per interval, newest first, and an object has
    ridge (band) data once a result has been set: this is how the
    collector marks a work item as completed. *)
Record TFOutputData : Type := {
  attrs : gmap string PyObj;
  ridge_results : list (PyObj * (PyObj * PyObj * PyObj));
  band_results : list (PyObj * (PyObj * PyObj * PyObj))
}.

Definition empty_output : TFOutputData :=
  {| attrs := ∅; ridge_results := []; band_results := [] |}.

(** [d.<attr> = value] *)
Definition set_attr (attr : string) (value : PyObj) (d : TFOutputData)
  : TFOutputData :=
  {| attrs := <[attr := value]> (attrs d);
     ridge_results := ridge_results d;
     band_results := band_results d |}.

Definition set_ridge_data (interval filtered_signal freq phase : PyObj)
    (d : TFOutputData) : TFOutputData :=
  {| attrs := attrs d;
     ridge_results := (interval, (filtered_signal, freq, phase)) :: ridge_results d;
     band_results := band_results d |}.

Definition has_ridge_data (d : TFOutputData) : bool :=
  match ridge_results d with [] => false | _ :: _ => true end.

Definition set_band_data (interval bands phase amp : PyObj)
    (d : TFOutputData) : TFOutputData :=
  {| attrs := attrs d;
     ridge_results := ridge_results d;
     band_results := (interval, (bands, phase, amp)) :: band_results d |}.

Definition has_band_data (d : TFOutputData) : bool :=
  match band_results d with [] => false | _ :: _ => true end.

(** The attributes of [TimeSeries] that the code under src reads. *)
Record TimeSeries : Type := {
  name : string;
  signal : PyObj;
  frequency : PyObj;
  output_data : TFOutputData
}.

(** [sig.output_data] after the object it refers to was mutated. *)
Definition with_output (d : TFOutputData) (s : TimeSeries) : TimeSeries :=
  {| name := name s; signal := signal s; frequency := frequency s;
     output_data := d |}.

(** Modelled from the spec: the class [Signals] is not under src; it is
    the list of loaded signals, and [get] correlates a result with its
    signal by name: the first signal of that name, [None] when there is
    none. *)
Fixpoint get (n : string) (signals : list TimeSeries) : option TimeSeries :=
  match signals with
  | [] => None
  | s :: rest => if String.eqb (name s) n then Some s else get n rest
  end.

(** The list after the object that [get n] returns has become [s']:
    the handlers mutate that object in place. *)
Fixpoint put (n : string) (s' : TimeSeries) (signals : list TimeSeries)
  : list TimeSeries :=
  match signals with
  | [] => []
  | s :: rest =>
      if String.eqb (name s) n then s' :: rest else s :: put n s' rest
  end.

End Data.

Arguments attrs {PyObj} _.
Arguments ridge_results {PyObj} _.
Arguments band_results {PyObj} _.
Arguments empty_output {PyObj}.
Arguments set_attr {PyObj} _ _ _.
Arguments set_ridge_data {PyObj} _ _ _ _ _.
Arguments has_ridge_data {PyObj} _.
Arguments set_band_data {PyObj} _ _ _ _ _.
Arguments has_band_data {PyObj} _.
Arguments name {PyObj} _.
Arguments signal {PyObj} _.
Arguments frequency {PyObj} _.
Arguments output_data {PyObj} _.
Arguments with_output {PyObj} _ _.
Arguments get {PyObj} _ _.
Arguments put {PyObj} _ _ _.

End Signals.

(** ** REPresenter.py: the handlers that collect the results *)

Module REPresenter.
Import Signals.

Section Presenter.

Variable PyObj : Type.

(** What the handlers read and change of the presenter: its signals,
    and how many times each completion callback has run. The
    callbacks themselves only print and draw on the view. *)
Record Presenter : Type := {
  signals : list (TimeSeries PyObj);
  ridge_completed_calls : nat;
  filter_completed_calls : nat
}.

Definition set_signals (l : list (TimeSeries PyObj)) (self : Presenter)
  : Presenter :=
  {| signals := l;
     ridge_completed_calls := ridge_completed_calls self;
     filter_completed_calls := filter_completed_calls self |}.

Definition on_all_ridge_completed : Py.M Presenter unit :=
  Py.modify (fun self =>
    {| signals := signals self;
       ridge_completed_calls := S (ridge_completed_calls self);
       filter_completed_calls := filter_completed_calls self |}).

Definition on_all_filter_completed : Py.M Presenter unit :=
  Py.modify (fun self =>
    {| signals := signals self;
       ridge_completed_calls := ridge_completed_calls self;
       filter_completed_calls := S (filter_completed_calls self) |}).

Definition on_ridge_completed
    (name times freq values ampl powers avg_ampl avg_pow interval
       filtered_signal iphi ifreq : _)
  : Py.M Presenter unit :=
  (self <- Py.get ;;
   match get name (signals self) with
   | None => Py.raise AttributeError        (* None.output_data *)
   | Some sig =>
       let d := output_data sig in
       let d := set_ridge_data interval filtered_signal ifreq iphi d in
       let d := set_attr "transform" values d in
       let d := set_attr "ampl" ampl d in
       let d := set_attr "powers" powers d in
       let d := set_attr "avg_ampl" avg_ampl d in
       let d := set_attr "avg_pow" avg_pow d in
       let d := set_attr "freq" freq d in
       let d := set_attr "times" times d in
       Py.modify (set_signals (put name (with_output d sig) (signals self))) ;;;
       self <- Py.get ;;
       if forallb (fun i => has_ridge_data (output_data i)) (signals self)
       then on_all_ridge_completed
       else Py.ret tt
   end)%py.

(** In [on_filter_completed] the name [d] is bound to what
    [self.signals.get(name)] returns, a [TimeSeries], and
    [set_band_data] is called on that object. What that call does is
    not visible under src (the other uses of [set_band_data]'s
    siblings are on [output_data]); it is a parameter: it may raise,
    or leave the time series changed. *)
Variable TimeSeries_set_band_data :
  PyObj -> PyObj -> PyObj -> PyObj -> TimeSeries PyObj ->
  exn + TimeSeries PyObj.

Definition on_filter_completed (name bands phase amp interval : _)
  : Py.M Presenter unit :=
  (self <- Py.get ;;
   match get name (signals self) with
   | None => Py.raise AttributeError        (* None.set_band_data *)
   | Some d =>
       d' <- Py.call (TimeSeries_set_band_data interval bands phase amp d) ;;
       Py.modify (set_signals (put name d' (signals self))) ;;;
       self <- Py.get ;;
       if forallb (fun i => has_band_data (output_data i)) (signals self)
       then on_all_filter_completed
       else Py.ret tt
   end)%py.

(** A result tuple of ridge extraction, as the worker sends it. *)
Record RidgeResult : Type := {
  r_name : string;
  r_times : PyObj; r_freq : PyObj; r_values : PyObj;
  r_ampl : PyObj; r_powers : PyObj;
  r_avg_ampl : PyObj; r_avg_pow : PyObj;
  r_interval : PyObj;
  r_filtered_signal : PyObj; r_iphi : PyObj; r_ifreq : PyObj
}.

(** The handler called with the elements of the tuple as arguments. *)
Definition deliver_ridge (r : RidgeResult) : Py.M Presenter unit :=
  on_ridge_completed (r_name r) (r_times r) (r_freq r) (r_values r)
    (r_ampl r) (r_powers r) (r_avg_ampl r) (r_avg_pow r) (r_interval r)
    (r_filtered_signal r) (r_iphi r) (r_ifreq r).

(** A result tuple of band-pass filtering. *)
Record FilterResult : Type := {
  f_name : string;
  f_bands : PyObj; f_phase : PyObj; f_amp : PyObj; f_interval : PyObj
}.

Definition deliver_filter (r : FilterResult) : Py.M Presenter unit :=
  on_filter_completed (f_name r) (f_bands r) (f_phase r) (f_amp r)
    (f_interval r).

(** The presenter after the handler has been called once per result,
    in the order of arrival. A call that raises leaves the presenter
    as it was when the exception left the handler, and the later
    results are still delivered; a caller that stops at the first
    exception sees a prefix of the same sequence. *)
Fixpoint deliver_all {R} (handler : R -> Py.M Presenter unit)
    (results : list R) (self : Presenter) : Presenter :=
  match results with
  | [] => self
  | r :: rest => deliver_all handler rest (fst (handler r self))
  end.

(** The object that a ridge result leaves behind. *)
Definition ridge_update (r : RidgeResult) (sig : TimeSeries PyObj)
  : TimeSeries PyObj :=
  with_output
    (set_attr "times" (r_times r)
      (set_attr "freq" (r_freq r)
        (set_attr "avg_pow" (r_avg_pow r)
          (set_attr "avg_ampl" (r_avg_ampl r)
            (set_attr "powers" (r_powers r)
              (set_attr "ampl" (r_ampl r)
                (set_attr "transform" (r_values r)
                  (set_ridge_data (r_interval r) (r_filtered_signal r)
                     (r_ifreq r) (r_iphi r) (output_data sig)))))))))
    sig.

Definition fire_ridge (self : Presenter) (l : list (TimeSeries PyObj)) : Presenter :=
  {| signals := l;
     ridge_completed_calls := S (ridge_completed_calls self);
     filter_completed_calls := filter_completed_calls self |}.

Definition fire_filter (self : Presenter) (l : list (TimeSeries PyObj)) : Presenter :=
  {| signals := l;
     ridge_completed_calls := ridge_completed_calls self;
     filter_completed_calls := S (filter_completed_calls self) |}.

Definition has_ridge (s : TimeSeries PyObj) : bool :=
  has_ridge_data (output_data s).

Definition has_band (s : TimeSeries PyObj) : bool :=
  has_band_data (output_data s).

End Presenter.

Arguments signals {PyObj} _.
Arguments ridge_completed_calls {PyObj} _.
Arguments filter_completed_calls {PyObj} _.
Arguments on_ridge_completed {PyObj} _ _ _ _ _ _ _ _ _ _ _ _ _.
Arguments on_filter_completed {PyObj} _ _ _ _ _ _ _.
Arguments deliver_ridge {PyObj} _ _.
Arguments deliver_filter {PyObj} _ _ _.
Arguments deliver_all {PyObj R} _ _ _.
Arguments has_ridge {PyObj} _.
Arguments ridge_update {PyObj} _ _.
Arguments fire_ridge {PyObj} _ _.
Arguments fire_filter {PyObj} _ _.
Arguments set_signals {PyObj} _ _.
Arguments has_band {PyObj} _.
Arguments r_name {PyObj} _.
Arguments f_name {PyObj} _.

End REPresenter.

(** ** The compute functions run by the worker processes *)

Module Workers.
Import Signals.

Section Compute.

Variable PyObj : Type.

(** A Python value that may be [None]: the view returns
    [Optional[float]] for every field of the parameter set. *)
Definition PyVal : Type := option PyObj.

(** The elements of a result tuple: the name is a string, the rest are
    arrays and scalars. *)
Inductive Elem : Type :=
| EStr (s : string)
| EObj (o : PyObj).

Definition ResultTuple : Type := list Elem.

(** The result channel: the tuples put on it, oldest first. *)
Definition Queue : Type := list ResultTuple.

Definition queue_put (t : ResultTuple) : Py.M Queue unit :=
  Py.modify (fun q => q ++ [t]).

(** [ParamSet], as [DBWindow.get_param_set] builds it. *)
Record ParamSet : Type := {
  freq_range1 : option (PyObj * PyObj);
  freq_range2 : option (PyObj * PyObj);
  window : PyVal;
  propagation_const : PyVal;
  surr_count : PyVal;
  overlap : PyVal;
  order : PyVal;
  confidence_level : PyVal
}.

(** [list(t)] and [*t] for an optional pair: [None] is not iterable. *)
Definition iterate {S} (t : option (PyObj * PyObj)) : Py.M S (list PyObj) :=
  match t with
  | Some (a, b) => Py.ret [a; b]
  | None => Py.raise TypeError
  end.

(** *** bayesian_inference.py *)

(** The packaged engine and the numerical library are outside the
    repository; their calls are parameters, and each may raise.
    Arguments are passed as Python passes them, [None] included. *)
Variable initialize : exn + PyObj.
Variable matlab_double_of : PyObj -> PyObj.          (* matlab.double(x.tolist()) *)
Variable full_bayesian : PyObj -> list PyVal -> exn + list PyObj.

Definition _moda_dynamic_bayesian_inference
    (signal1 signal2 : TimeSeries PyObj) (params : ParamSet)
  : Py.M Queue unit :=
  (package <- Py.call initialize ;;
   let sig1 := matlab_double_of (signal signal1) in
   let sig2 := matlab_double_of (signal signal2) in
   int1 <- iterate (freq_range1 params) ;;
   int2 <- iterate (freq_range2 params) ;;
   let fs := frequency signal1 in
   let win := window params in
   let pr := propagation_const params in
   let ovr := overlap params in
   let bn := order params in
   let ns := surr_count params in
   let signif := confidence_level params in
   result <- Py.call
     (full_bayesian package
        ([Some sig1; Some sig2] ++ map Some int1 ++ map Some int2
           ++ [Some fs; win; pr; ovr; bn; ns; signif])) ;;
   queue_put (EStr (name signal1) :: map EObj result))%py.

Variable loop_butter : PyObj -> list PyObj -> PyObj -> exn + PyObj.
Variable angle_hilbert : PyObj -> exn + PyObj.       (* np.angle(hilbert(x)) *)
(** [bayes_main(phi1, phi2, win, 1 / fs, ovr, pr, 0, bn)]: the first
    two of the three values returned. *)
Variable bayes_main : PyObj -> PyObj -> PyVal -> PyObj -> PyVal -> PyVal
                      -> PyVal -> exn + (PyObj * PyObj).
(** Lines 94 to 111: the coupling strengths and coupling functions of
    every window, from [cc] and the order. *)
Variable couplings : PyObj -> PyVal
                     -> exn + (PyObj * PyObj * PyObj * PyObj * PyObj * PyObj).
(** Lines 113 to 142: the surrogates and the significance levels taken
    from them. *)
Variable surrogate_levels :
  PyObj -> PyObj -> ParamSet -> PyObj -> exn + (PyObj * PyObj).

Definition _dynamic_bayesian_inference
    (signal1 signal2 : TimeSeries PyObj) (params : ParamSet)
  : Py.M Queue unit :=
  (let sig1 := signal signal1 in
   let sig2 := signal signal2 in
   let fs := frequency signal1 in
   let interval1 := freq_range1 params in
   let interval2 := freq_range2 params in
   let bn := order params in
   args1 <- iterate interval1 ;;
   bands1 <- Py.call (loop_butter sig1 args1 fs) ;;
   phi1 <- Py.call (angle_hilbert bands1) ;;
   args2 <- iterate interval2 ;;
   bands2 <- Py.call (loop_butter sig2 args2 fs) ;;
   phi2 <- Py.call (angle_hilbert bands2) ;;
   let p1 := phi1 in
   let p2 := phi2 in
   let win := window params in
   let ovr := overlap params in
   let pr := propagation_const params in
   r <- Py.call (bayes_main phi1 phi2 win fs ovr pr bn) ;;
   let tm := fst r in
   let cc := snd r in
   c <- Py.call (couplings cc bn) ;;
   let cpl1 := fst (fst (fst (fst (fst c)))) in
   let cpl2 := snd (fst (fst (fst (fst c)))) in
   let cf1 := snd (fst (fst (fst c))) in
   let cf2 := snd (fst (fst c)) in
   let mcf1 := snd (fst c) in
   let mcf2 := snd c in
   s <- Py.call (surrogate_levels phi1 phi2 params fs) ;;
   let surr_cpl1 := fst s in
   let surr_cpl2 := snd s in
   queue_put
     [EStr (name signal1); EObj tm; EObj p1; EObj p2; EObj cpl1; EObj cpl2;
      EObj cf1; EObj cf2; EObj mcf1; EObj mcf2;
      EObj surr_cpl1; EObj surr_cpl2])%py.

(** *** bispectrum_analysis.py *)

(** Modelled from the spec: the decorator [process] (processes/mp_utils)
    is not under src. A compute function is called with the result
    sink and the payload and writes one result tuple to the sink: the
    decorated function puts the tuple that the function returns on the
    queue, and puts nothing when the function raises. *)
Definition process {S} (f : Py.M S ResultTuple) : Py.M (Queue * S) unit :=
  fun qs =>
    match f (snd qs) with
    | (s', inl e) => ((fst qs, s'), inl e)
    | (s', inr t) => ((fst qs ++ [t], s'), inr tt)
    end.

(** The dict [opt] that [_biphase] receives. *)
Definition dict_get (k : string) : Py.M (gmap string PyObj) PyObj :=
  fun d =>
    match d !! k with
    | Some v => (d, inr v)
    | None => (d, inl KeyError)
    end.

Definition dict_set (k : string) (v : PyObj) : Py.M (gmap string PyObj) unit :=
  Py.modify (fun d => <[k := v]> d).

Definition dict_del (k : string) : Py.M (gmap string PyObj) unit :=
  fun d =>
    match d !! k with
    | Some _ => (delete k d, inr tt)
    | None => (d, inl KeyError)
    end.

Variable tolist : PyObj -> PyObj.
Variable matlab_double : PyObj -> PyObj.
Variable complex_list : PyObj -> PyObj.      (* [complex(i) for i in x] *)
Variable real_parts : PyObj -> PyObj.        (* [i.real for i in x] *)
Variable imag_parts : PyObj -> PyObj.        (* [i.imag for i in x] *)
Variable biphase_wav_new_calculate :
  PyObj -> PyObj -> PyObj -> PyObj -> list PyObj -> gmap string PyObj
  -> exn + (PyObj * PyObj).
Variable matlab_to_numpy : PyObj -> PyObj.
Variable reshape : PyObj -> PyObj -> PyObj.  (* [x.reshape(l)], [l] read off the first argument *)

Definition _biphase
    (sig1 sig2 : TimeSeries PyObj) (fs f0 : PyObj) (fr : list PyObj)
  : Py.M (gmap string PyObj) ResultTuple :=
  (let name := name sig1 in
   let sig1list := tolist (signal sig1) in
   let sig2list := tolist (signal sig2) in
   v <- dict_get "PadLR1" ;;
   dict_set "PadLR1" (matlab_double (tolist v)) ;;;
   v <- dict_get "PadLR2" ;;
   dict_set "PadLR2" (matlab_double (tolist v)) ;;;
   v <- dict_get "twf1" ;;
   let twf1 := complex_list v in
   v <- dict_get "twf2" ;;
   let twf2 := complex_list v in
   let twf1r := real_parts twf1 in
   let twf2r := real_parts twf2 in
   let twf1i := imag_parts twf1 in
   let twf2i := imag_parts twf2 in
   dict_del "twf1" ;;;
   dict_del "twf2" ;;;
   dict_set "twf1r" (matlab_double twf1r) ;;;
   dict_set "twf2r" (matlab_double twf2r) ;;;
   dict_set "twf1i" (matlab_double twf1i) ;;;
   dict_set "twf2i" (matlab_double twf2i) ;;;
   opt <- Py.get ;;
   r1 <- Py.call (biphase_wav_new_calculate sig1list sig1list fs f0 fr opt) ;;
   r2 <- Py.call (biphase_wav_new_calculate sig2list sig2list fs f0 fr opt) ;;
   r3 <- Py.call (biphase_wav_new_calculate sig1list sig2list fs f0 fr opt) ;;
   r4 <- Py.call (biphase_wav_new_calculate sig2list sig1list fs f0 fr opt) ;;
   let biamp1 := matlab_to_numpy (fst r1) in
   let biphase1 := matlab_to_numpy (snd r1) in
   let biamp2 := matlab_to_numpy (fst r2) in
   let biphase2 := matlab_to_numpy (snd r2) in
   let biamp3 := matlab_to_numpy (fst r3) in
   let biphase3 := matlab_to_numpy (snd r3) in
   let biamp4 := matlab_to_numpy (fst r4) in
   let biphase4 := matlab_to_numpy (snd r4) in
   let l := biamp1 in
   Py.ret
     (EStr name :: map EObj fr ++
      [EObj (reshape l biamp1); EObj (reshape l biphase1);
       EObj (reshape l biamp2); EObj (reshape l biphase2);
       EObj (reshape l biamp3); EObj (reshape l biphase3);
       EObj (reshape l biamp4); EObj (reshape l biphase4)]))%py.

(** The dict that lines 68 to 85 of [_biphase] leave behind, when [opt]
    held [padlr1], [padlr2], [twf1] and [twf2] under their keys. *)
Definition marshalled (opt : gmap string PyObj) (padlr1 padlr2 twf1 twf2 : PyObj)
  : gmap string PyObj :=
  <["twf2i" := matlab_double (imag_parts (complex_list twf2))]>
    (<["twf1i" := matlab_double (imag_parts (complex_list twf1))]>
      (<["twf2r" := matlab_double (real_parts (complex_list twf2))]>
        (<["twf1r" := matlab_double (real_parts (complex_list twf1))]>
          (delete "twf2"
            (delete "twf1"
              (<["PadLR2" := matlab_double (tolist padlr2)]>
                (<["PadLR1" := matlab_double (tolist padlr1)]> opt))))))).

(** The keys that [_biphase] assigns or deletes. *)
Definition marshalled_keys : list string :=
  ["PadLR1"; "PadLR2"; "twf1"; "twf2"; "twf1r"; "twf2r"; "twf1i"; "twf2i"].

(** Lines 163 to 267 of [_bispectrum_analysis]: the bispectra, the
    surrogates and the wavelet amplitudes, the eighteen values that
    follow the name in the tuple it returns. *)
Variable bispectrum_values :
  PyObj -> PyObj -> PyObj -> exn + list PyObj.

Definition _bispectrum_analysis
    (sig1 sig2 : TimeSeries PyObj) (params : PyObj)
  : Py.M unit ResultTuple :=
  (let name := name sig1 in
   let sig1 := signal sig1 in
   let sig2 := signal sig2 in
   values <- Py.call (bispectrum_values sig1 sig2 params) ;;
   Py.ret (EStr name :: map EObj values))%py.

(** The channel and the outcome of a decorated function's run. *)
Definition channel_after {S A} (r : (Queue * S) * (exn + A))
  : Queue * (exn + A) :=
  (fst (fst r), snd r).

(** The first element of a tuple. *)
Definition key_of (t : ResultTuple) : option Elem := head t.

(** What one invocation may do to the result channel: it returns after
    writing exactly one tuple whose first element is [key], or it raises
    and has written nothing. *)
Definition writes_one_or_raises {A}
    (key : string) (before : Queue) (after : Queue * (exn + A))
  : Prop :=
  match after with
  | (q, inr _) => exists t, q = before ++ [t] /\ key_of t = Some (EStr key)
  | (q, inl _) => q = before
  end.

End Compute.

Arguments EStr {PyObj} _.
Arguments EObj {PyObj} _.
Arguments key_of {PyObj} _.
Arguments channel_after {PyObj S A} _.
Arguments marshalled {PyObj} _ _ _ _ _ _ _ _ _ _.
Arguments writes_one_or_raises {PyObj A} _ _ _.
Arguments freq_range1 {PyObj} _.
Arguments freq_range2 {PyObj} _.
Arguments window {PyObj} _.
Arguments propagation_const {PyObj} _.
Arguments surr_count {PyObj} _.
Arguments overlap {PyObj} _.
Arguments order {PyObj} _.
Arguments confidence_level {PyObj} _.
Arguments process {PyObj S} _ _.
Arguments _moda_dynamic_bayesian_inference {PyObj} _ _ _ _ _ _ _.
Arguments _dynamic_bayesian_inference {PyObj} _ _ _ _ _ _ _ _ _.
Arguments _biphase {PyObj} _ _ _ _ _ _ _ _ _ _ _ _ _ _.
Arguments _bispectrum_analysis {PyObj} _ _ _ _ _.

End Workers.

(** ** The dispatcher *)

Module Dispatcher.

(** Modelled from the spec: the dispatcher (the [mp_handler] that the
    presenters call) is not under src. Following section 4.2 of the
    specification: [dispatch] spawns one OS process per work item,
    unconditionally and independently (a process that fails to start
    does not prevent the others), registers each spawned handle with the
    batch, and imposes no concurrency cap; the batch starts with an
    empty completed set. *)
Record WorkItem : Type := { item_name : string }.

Record WorkerHandle : Type := {
  worker_pid : Z;
  worker_item : string;
  running : bool
}.

Record JobBatch : Type := {
  submitted : list string;
  completed : list string;
  handles : list WorkerHandle
}.

Section Dispatch.

(** Whether the operating system manages to start the process of an
    item. *)
Variable starts : WorkItem -> bool.

Fixpoint spawn_all (next_pid : Z) (work_items : list WorkItem)
  : list WorkerHandle :=
  match work_items with
  | [] => []
  | w :: rest =>
      if starts w
      then {| worker_pid := next_pid; worker_item := item_name w;
              running := true |} :: spawn_all (next_pid + 1) rest
      else spawn_all next_pid rest
  end.

Definition dispatch (next_pid : Z) (work_items : list WorkItem) : JobBatch :=
  {| submitted := map item_name work_items;
     completed := [];
     handles := spawn_all next_pid work_items |}.

End Dispatch.

(** The workers of the batch that are running at the same time. *)
Definition running_workers (b : JobBatch) : nat :=
  length (filter (fun h => running h = true) (handles b)).

(** The cap of the claim: no more running workers than CPUs. *)
Definition within_cap (cpus : nat) (b : JobBatch) : bool :=
  (running_workers b <=? cpus)%nat.

End Dispatcher.

(** ** Concrete inputs *)

Module Inputs.
Import Signals.

(** A worker (pid 100) that spawned 101 and 104; 101 spawned 102 and
    103. Pid 1 is the application. *)
Definition worker_tree : MpUtils.ProcTree :=
  MpUtils.PNode 100
    [MpUtils.PNode 101 [MpUtils.PNode 102 []; MpUtils.PNode 103 []];
     MpUtils.PNode 104 []].

Definition os_live : list MpUtils.ProcTree :=
  [MpUtils.PNode 1 [worker_tree]].

Definition os_worker_exited : list MpUtils.ProcTree :=
  [MpUtils.PNode 1 []].

Definition worker : MpUtils.Process := {| MpUtils.pid := 100 |}.


(** Process 102 exits after the descendants were listed. *)
Definition gone_102 (c : Z) : bool := c =? 102.

(** Signals without any output yet; values are numbered. *)
Definition sig (n : string) : TimeSeries Z :=
  {| name := n; signal := 0; frequency := 10; output_data := empty_output |}.

Definition presenter (names : list string) : REPresenter.Presenter Z :=
  {| REPresenter.signals := map sig names;
     REPresenter.ridge_completed_calls := 0;
     REPresenter.filter_completed_calls := 0 |}.

Definition ridge_result (n : string) (interval : Z) : REPresenter.RidgeResult Z :=
  {| REPresenter.r_name := n;
     REPresenter.r_times := 1; REPresenter.r_freq := 2;
     REPresenter.r_values := 3; REPresenter.r_ampl := 4;
     REPresenter.r_powers := 5; REPresenter.r_avg_ampl := 6;
     REPresenter.r_avg_pow := 7; REPresenter.r_interval := interval;
     REPresenter.r_filtered_signal := 8; REPresenter.r_iphi := 9;
     REPresenter.r_ifreq := 10 |}.

Definition filter_result (n : string) : REPresenter.FilterResult Z :=
  {| REPresenter.f_name := n;
     REPresenter.f_bands := 1; REPresenter.f_phase := 2;
     REPresenter.f_amp := 3; REPresenter.f_interval := 4 |}.

(** A [set_band_data] that is missing from [TimeSeries]. *)
Definition no_such_method (interval bands phase amp : Z) (d : TimeSeries Z)
  : exn + TimeSeries Z := inl AttributeError.

(** A parameter set whose first frequency range was left empty in the
    window, and a complete one. *)
Definition params_no_range : Workers.ParamSet Z :=
  {| Workers.freq_range1 := None;
     Workers.freq_range2 := Some (3, 4);
     Workers.window := Some 50;
     Workers.propagation_const := Some 2;
     Workers.surr_count := Some 5;
     Workers.overlap := Some 1;
     Workers.order := Some 2;
     Workers.confidence_level := Some 95 |}.

Definition params_full : Workers.ParamSet Z :=
  {| Workers.freq_range1 := Some (1, 2);
     Workers.freq_range2 := Some (3, 4);
     Workers.window := Some 50;
     Workers.propagation_const := Some 2;
     Workers.surr_count := Some 5;
     Workers.overlap := Some 1;
     Workers.order := Some 2;
     Workers.confidence_level := Some 95 |}.

(** Stand-ins for the engine: every call returns. *)
Definition engine_initialize : exn + Z := inr 0.
Definition engine_full_bayesian (package : Z) (args : list (option Z))
  : exn + list Z := inr [20; 21].
Definition engine_loop_butter (x : Z) (range : list Z) (fs : Z) : exn + Z :=
  inr x.
Definition engine_angle_hilbert (x : Z) : exn + Z := inr x.
Definition engine_bayes_main (phi1 phi2 : Z) (win : option Z) (fs : Z)
    (ovr pr bn : option Z) : exn + (Z * Z) := inr (30, 31).
Definition engine_couplings (cc : Z) (bn : option Z)
  : exn + (Z * Z * Z * Z * Z * Z) := inr (40, 41, 42, 43, 44, 45).
Definition engine_surrogate_levels (phi1 phi2 : Z) (params : Workers.ParamSet Z)
    (fs : Z) : exn + (Z * Z) := inr (50, 51).
Definition engine_biphase (x y fs f0 : Z) (fr : list Z) (opt : gmap string Z)
  : exn + (Z * Z) := inr (60, 61).
Definition engine_bispectrum (x y params : Z) : exn + list Z := inr [70; 71].

(** The dict that bispectrum analysis hands over to [_biphase]. *)
Definition opt0 : gmap string Z :=
  <["PadLR1" := 1]> (<["PadLR2" := 2]> (<["twf1" := 3]> (<["twf2" := 4]>
    (<["nv" := 5]> ∅)))).

Definition three_items : list Dispatcher.WorkItem :=
  [ {| Dispatcher.item_name := "sigA" |};
    {| Dispatcher.item_name := "sigB" |};
    {| Dispatcher.item_name := "sigC" |} ].

Definition always_starts (w : Dispatcher.WorkItem) : bool := true.

End Inputs.

(** * More of the code *)

(** ** Statements that raise other exceptions *)

Module PyE.

(** The monad of statements, for any type [E] of exceptions. *)
Definition M (E S A : Type) : Type := S -> S * (E + A).

Definition ret {E S A} (a : A) : M E S A := fun s => (s, inr a).

Definition raise {E S A} (e : E) : M E S A := fun s => (s, inl e).

Definition bind {E S A B} (m : M E S A) (k : A -> M E S B) : M E S B :=
  fun s =>
    match m s with
    | (s', inl e) => (s', inl e)
    | (s', inr a) => k a s'
    end.

Definition get {E S} : M E S S := fun s => (s, inr s).

Definition modify {E S} (f : S -> S) : M E S unit := fun s => (f s, inr tt).

(** [if b: body] *)
Definition when {E S} (b : bool) (body : M E S unit) : M E S unit :=
  if b then body else ret tt.

(** [try: body except: pass], the bare except that swallows everything. *)
Definition try_pass {E S} (body : M E S unit) : M E S unit :=
  fun s =>
    match body s with
    | (s', inl _) => (s', inr tt)
    | (s', inr a) => (s', inr a)
    end.

(** [for x in xs: body x] *)
Fixpoint for_each {E S A} (xs : list A) (body : A -> M E S unit) : M E S unit :=
  match xs with
  | [] => ret tt
  | x :: xs' => bind (body x) (fun _ => for_each xs' body)
  end.

(** [for i in range(n): body] *)
Fixpoint repeat_n {E S} (n : nat) (body : M E S unit) : M E S unit :=
  match n with
  | O => ret tt
  | S n' => bind body (fun _ => repeat_n n' body)
  end.

End PyE.

Declare Scope pye_scope.
Delimit Scope pye_scope with pye.
Notation "x <- m ;; k" := (PyE.bind m (fun x => k))
  (at level 100, m at next level, right associativity) : pye_scope.
Notation "m ;;; k" := (PyE.bind m (fun _ => k))
  (at level 100, right associativity) : pye_scope.

(** ** MatplotlibWidget.py: crosshairs, listeners and zooming *)

Module MatplotlibWidget.

Inductive widget_exn : Type :=
| IndexError       (* pop from an empty list *)
| ValueError       (* list.remove(x): x not in list; a limit that is not finite *)
| ArtistRemoved.   (* remove() on an artist that is no longer on its axes *)

Inductive MouseButton : Type := LEFT | MIDDLE | RIGHT | BACK | FORWARD.

(** The [axis] argument of [set_log_scale]: a name or an index. *)
Inductive PyAxis : Type :=
| AxisName (s : string)
| AxisIndex (n : Z).

Section Widget.

(** Coordinates are floats; [Rect] is the class of gui.plotting.plots,
    which is not under src: both stay abstract. *)
Variable Coord : Type.
Variable Rect : Type.

(** A line of a crosshair, as [axhline] and [axvline] return it. *)
Record Line2D : Type := {
  line_id : nat;
  horizontal : bool;
  position : Coord
}.

(** The calls that the widget makes on the canvas, the toolbar, the axes
    scales and its listeners, oldest first. *)
Inductive Call : Type :=
| QWidgetUpdate
| CanvasDraw
| ToolbarPushCurrent
| SetYScale (log : bool)
| SetXScale (log : bool)
| ZoomListener (func : nat) (r : Rect)
| CrosshairListener (func : nat) (x y : Coord).

(** The attributes of the widget that the methods below use, with what
    they read and change of its axes: the artists drawn on them (by a
    number that identifies each), the number of the next artist, and the
    limits. Listeners are identified by a number. *)
Record Widget : Type := {
  log_y : bool;
  log_x : bool;
  temp_lines : list Line2D;
  selected_plots : list nat;
  show_crosshair : bool;
  temp_patch : option nat;
  rect : option Rect;
  zoom_listeners : list nat;
  mouse_zoom_enabled : bool;
  click_crosshair_enabled : bool;
  max_crosshairs : Z;
  crosshair_listeners : list nat;
  axes_artists : list nat;
  fresh_artist : nat;
  axes_xlim : Coord * Coord;
  axes_ylim : Coord * Coord;
  calls : list Call
}.

(** [self.<attribute> = v], one definition per attribute. *)
Definition with_log_y (v : bool) (self : Widget) : Widget :=
  {| log_y := v; log_x := log_x self; temp_lines := temp_lines self;
     selected_plots := selected_plots self; show_crosshair := show_crosshair
     self; temp_patch := temp_patch self; rect := rect self; zoom_listeners :=
     zoom_listeners self; mouse_zoom_enabled := mouse_zoom_enabled self;
     click_crosshair_enabled := click_crosshair_enabled self; max_crosshairs :=
     max_crosshairs self; crosshair_listeners := crosshair_listeners self;
     axes_artists := axes_artists self; fresh_artist := fresh_artist self;
     axes_xlim := axes_xlim self; axes_ylim := axes_ylim self; calls := calls
     self |}.

Definition with_log_x (v : bool) (self : Widget) : Widget :=
  {| log_y := log_y self; log_x := v; temp_lines := temp_lines self;
     selected_plots := selected_plots self; show_crosshair := show_crosshair
     self; temp_patch := temp_patch self; rect := rect self; zoom_listeners :=
     zoom_listeners self; mouse_zoom_enabled := mouse_zoom_enabled self;
     click_crosshair_enabled := click_crosshair_enabled self; max_crosshairs :=
     max_crosshairs self; crosshair_listeners := crosshair_listeners self;
     axes_artists := axes_artists self; fresh_artist := fresh_artist self;
     axes_xlim := axes_xlim self; axes_ylim := axes_ylim self; calls := calls
     self |}.

Definition with_temp_lines (v : list Line2D) (self : Widget) : Widget :=
  {| log_y := log_y self; log_x := log_x self; temp_lines := v; selected_plots
     := selected_plots self; show_crosshair := show_crosshair self; temp_patch :=
     temp_patch self; rect := rect self; zoom_listeners := zoom_listeners self;
     mouse_zoom_enabled := mouse_zoom_enabled self; click_crosshair_enabled :=
     click_crosshair_enabled self; max_crosshairs := max_crosshairs self;
     crosshair_listeners := crosshair_listeners self; axes_artists :=
     axes_artists self; fresh_artist := fresh_artist self; axes_xlim := axes_xlim
     self; axes_ylim := axes_ylim self; calls := calls self |}.

Definition with_show_crosshair (v : bool) (self : Widget) : Widget :=
  {| log_y := log_y self; log_x := log_x self; temp_lines := temp_lines self;
     selected_plots := selected_plots self; show_crosshair := v; temp_patch :=
     temp_patch self; rect := rect self; zoom_listeners := zoom_listeners self;
     mouse_zoom_enabled := mouse_zoom_enabled self; click_crosshair_enabled :=
     click_crosshair_enabled self; max_crosshairs := max_crosshairs self;
     crosshair_listeners := crosshair_listeners self; axes_artists :=
     axes_artists self; fresh_artist := fresh_artist self; axes_xlim := axes_xlim
     self; axes_ylim := axes_ylim self; calls := calls self |}.

Definition with_temp_patch (v : option nat) (self : Widget) : Widget :=
  {| log_y := log_y self; log_x := log_x self; temp_lines := temp_lines self;
     selected_plots := selected_plots self; show_crosshair := show_crosshair
     self; temp_patch := v; rect := rect self; zoom_listeners := zoom_listeners
     self; mouse_zoom_enabled := mouse_zoom_enabled self; click_crosshair_enabled
     := click_crosshair_enabled self; max_crosshairs := max_crosshairs self;
     crosshair_listeners := crosshair_listeners self; axes_artists :=
     axes_artists self; fresh_artist := fresh_artist self; axes_xlim := axes_xlim
     self; axes_ylim := axes_ylim self; calls := calls self |}.

Definition with_rect (v : option Rect) (self : Widget) : Widget :=
  {| log_y := log_y self; log_x := log_x self; temp_lines := temp_lines self;
     selected_plots := selected_plots self; show_crosshair := show_crosshair
     self; temp_patch := temp_patch self; rect := v; zoom_listeners :=
     zoom_listeners self; mouse_zoom_enabled := mouse_zoom_enabled self;
     click_crosshair_enabled := click_crosshair_enabled self; max_crosshairs :=
     max_crosshairs self; crosshair_listeners := crosshair_listeners self;
     axes_artists := axes_artists self; fresh_artist := fresh_artist self;
     axes_xlim := axes_xlim self; axes_ylim := axes_ylim self; calls := calls
     self |}.

Definition with_zoom_listeners (v : list nat) (self : Widget) : Widget :=
  {| log_y := log_y self; log_x := log_x self; temp_lines := temp_lines self;
     selected_plots := selected_plots self; show_crosshair := show_crosshair
     self; temp_patch := temp_patch self; rect := rect self; zoom_listeners := v;
     mouse_zoom_enabled := mouse_zoom_enabled self; click_crosshair_enabled :=
     click_crosshair_enabled self; max_crosshairs := max_crosshairs self;
     crosshair_listeners := crosshair_listeners self; axes_artists :=
     axes_artists self; fresh_artist := fresh_artist self; axes_xlim := axes_xlim
     self; axes_ylim := axes_ylim self; calls := calls self |}.

Definition with_mouse_zoom_enabled (v : bool) (self : Widget) : Widget :=
  {| log_y := log_y self; log_x := log_x self; temp_lines := temp_lines self;
     selected_plots := selected_plots self; show_crosshair := show_crosshair
     self; temp_patch := temp_patch self; rect := rect self; zoom_listeners :=
     zoom_listeners self; mouse_zoom_enabled := v; click_crosshair_enabled :=
     click_crosshair_enabled self; max_crosshairs := max_crosshairs self;
     crosshair_listeners := crosshair_listeners self; axes_artists :=
     axes_artists self; fresh_artist := fresh_artist self; axes_xlim := axes_xlim
     self; axes_ylim := axes_ylim self; calls := calls self |}.

Definition with_click_crosshair_enabled (v : bool) (self : Widget) : Widget :=
  {| log_y := log_y self; log_x := log_x self; temp_lines := temp_lines self;
     selected_plots := selected_plots self; show_crosshair := show_crosshair
     self; temp_patch := temp_patch self; rect := rect self; zoom_listeners :=
     zoom_listeners self; mouse_zoom_enabled := mouse_zoom_enabled self;
     click_crosshair_enabled := v; max_crosshairs := max_crosshairs self;
     crosshair_listeners := crosshair_listeners self; axes_artists :=
     axes_artists self; fresh_artist := fresh_artist self; axes_xlim := axes_xlim
     self; axes_ylim := axes_ylim self; calls := calls self |}.

Definition with_max_crosshairs (v : Z) (self : Widget) : Widget :=
  {| log_y := log_y self; log_x := log_x self; temp_lines := temp_lines self;
     selected_plots := selected_plots self; show_crosshair := show_crosshair
     self; temp_patch := temp_patch self; rect := rect self; zoom_listeners :=
     zoom_listeners self; mouse_zoom_enabled := mouse_zoom_enabled self;
     click_crosshair_enabled := click_crosshair_enabled self; max_crosshairs :=
     v; crosshair_listeners := crosshair_listeners self; axes_artists :=
     axes_artists self; fresh_artist := fresh_artist self; axes_xlim := axes_xlim
     self; axes_ylim := axes_ylim self; calls := calls self |}.

Definition with_crosshair_listeners (v : list nat) (self : Widget) : Widget :=
  {| log_y := log_y self; log_x := log_x self; temp_lines := temp_lines self;
     selected_plots := selected_plots self; show_crosshair := show_crosshair
     self; temp_patch := temp_patch self; rect := rect self; zoom_listeners :=
     zoom_listeners self; mouse_zoom_enabled := mouse_zoom_enabled self;
     click_crosshair_enabled := click_crosshair_enabled self; max_crosshairs :=
     max_crosshairs self; crosshair_listeners := v; axes_artists := axes_artists
     self; fresh_artist := fresh_artist self; axes_xlim := axes_xlim self;
     axes_ylim := axes_ylim self; calls := calls self |}.

Definition with_axes_artists (v : list nat) (self : Widget) : Widget :=
  {| log_y := log_y self; log_x := log_x self; temp_lines := temp_lines self;
     selected_plots := selected_plots self; show_crosshair := show_crosshair
     self; temp_patch := temp_patch self; rect := rect self; zoom_listeners :=
     zoom_listeners self; mouse_zoom_enabled := mouse_zoom_enabled self;
     click_crosshair_enabled := click_crosshair_enabled self; max_crosshairs :=
     max_crosshairs self; crosshair_listeners := crosshair_listeners self;
     axes_artists := v; fresh_artist := fresh_artist self; axes_xlim := axes_xlim
     self; axes_ylim := axes_ylim self; calls := calls self |}.

Definition with_fresh_artist (v : nat) (self : Widget) : Widget :=
  {| log_y := log_y self; log_x := log_x self; temp_lines := temp_lines self;
     selected_plots := selected_plots self; show_crosshair := show_crosshair
     self; temp_patch := temp_patch self; rect := rect self; zoom_listeners :=
     zoom_listeners self; mouse_zoom_enabled := mouse_zoom_enabled self;
     click_crosshair_enabled := click_crosshair_enabled self; max_crosshairs :=
     max_crosshairs self; crosshair_listeners := crosshair_listeners self;
     axes_artists := axes_artists self; fresh_artist := v; axes_xlim := axes_xlim
     self; axes_ylim := axes_ylim self; calls := calls self |}.

Definition with_axes_xlim (v : Coord * Coord) (self : Widget) : Widget :=
  {| log_y := log_y self; log_x := log_x self; temp_lines := temp_lines self;
     selected_plots := selected_plots self; show_crosshair := show_crosshair
     self; temp_patch := temp_patch self; rect := rect self; zoom_listeners :=
     zoom_listeners self; mouse_zoom_enabled := mouse_zoom_enabled self;
     click_crosshair_enabled := click_crosshair_enabled self; max_crosshairs :=
     max_crosshairs self; crosshair_listeners := crosshair_listeners self;
     axes_artists := axes_artists self; fresh_artist := fresh_artist self;
     axes_xlim := v; axes_ylim := axes_ylim self; calls := calls self |}.

Definition with_axes_ylim (v : Coord * Coord) (self : Widget) : Widget :=
  {| log_y := log_y self; log_x := log_x self; temp_lines := temp_lines self;
     selected_plots := selected_plots self; show_crosshair := show_crosshair
     self; temp_patch := temp_patch self; rect := rect self; zoom_listeners :=
     zoom_listeners self; mouse_zoom_enabled := mouse_zoom_enabled self;
     click_crosshair_enabled := click_crosshair_enabled self; max_crosshairs :=
     max_crosshairs self; crosshair_listeners := crosshair_listeners self;
     axes_artists := axes_artists self; fresh_artist := fresh_artist self;
     axes_xlim := axes_xlim self; axes_ylim := v; calls := calls self |}.

Definition with_calls (v : list Call) (self : Widget) : Widget :=
  {| log_y := log_y self; log_x := log_x self; temp_lines := temp_lines self;
     selected_plots := selected_plots self; show_crosshair := show_crosshair
     self; temp_patch := temp_patch self; rect := rect self; zoom_listeners :=
     zoom_listeners self; mouse_zoom_enabled := mouse_zoom_enabled self;
     click_crosshair_enabled := click_crosshair_enabled self; max_crosshairs :=
     max_crosshairs self; crosshair_listeners := crosshair_listeners self;
     axes_artists := axes_artists self; fresh_artist := fresh_artist self;
     axes_xlim := axes_xlim self; axes_ylim := axes_ylim self; calls := v |}.

(** [bool(x)] for a float, [Rect(x, y)], [Rect(x1, y1, x2, y2)] and the
    attributes of a [Rect]. *)
Variable truth : Coord -> bool.
Variable Rect2 : Coord -> Coord -> Rect.
Variable Rect4 : Coord -> Coord -> Coord -> Coord -> Rect.
Variable rect_x1 rect_x2 rect_y1 rect_y2 : Rect -> Coord.

(** [axes.set_xlim(left, right)] and [axes.set_ylim(bottom, top)] of
    matplotlib: the limits that the axes have after the call, or the
    exception raised. The limits are not always the ones asked for
    (two identical limits are moved apart, and a limit that is not
    positive is ignored on a logarithmic axis), and [ValueError] is
    raised for a limit that is NaN or infinite. matplotlib decides from
    the state of the axes, so both take the widget. *)
Variable set_xlim set_ylim : Widget -> Coord -> Coord -> widget_exn + (Coord * Coord).

Definition W (A : Type) : Type := PyE.M widget_exn Widget A.

Definition axes_set_xlim (left right : Coord) : W unit :=
  fun self =>
    match set_xlim self left right with
    | inr lim => (with_axes_xlim lim self, inr tt)
    | inl e => (self, inl e)
    end.

Definition axes_set_ylim (bottom top : Coord) : W unit :=
  fun self =>
    match set_ylim self bottom top with
    | inr lim => (with_axes_ylim lim self, inr tt)
    | inl e => (self, inl e)
    end.

Definition call (c : Call) : W unit :=
  PyE.modify (fun self => with_calls (calls self ++ [c]) self).

(** [artist.remove()]: takes the artist off the axes, and raises when it
    is not there any more. *)
Definition artist_remove (id : nat) : W unit :=
  (self <- PyE.get ;;
   if bool_decide (id ∈ axes_artists self)
   then PyE.modify
          (with_axes_artists (filter (fun a => a <> id) (axes_artists self)))
   else PyE.raise ArtistRemoved)%pye.

(** [axes.axhline] and [axes.axvline]: a new artist on the axes. *)
Definition new_line (is_horizontal : bool) (at_ : Coord) : W Line2D :=
  (self <- PyE.get ;;
   let id := fresh_artist self in
   PyE.modify (fun self =>
     with_fresh_artist (S id)
       (with_axes_artists (axes_artists self ++ [id]) self)) ;;;
   PyE.ret {| line_id := id; horizontal := is_horizontal; position := at_ |})%pye.

Definition set_mouse_zoom_enabled (value : bool) : W unit :=
  PyE.modify (with_mouse_zoom_enabled value).

Definition set_click_crosshair_enabled (value : bool) : W unit :=
  PyE.modify (with_click_crosshair_enabled value).

Definition update : W unit :=
  (call QWidgetUpdate ;;; call CanvasDraw)%pye.

Definition is_y_axis (axis : PyAxis) : bool :=
  match axis with
  | AxisName s => String.eqb s "y"
  | AxisIndex n => n =? 1
  end.

Definition set_log_scale (logarithmic : bool) (axis : PyAxis) : W unit :=
  if is_y_axis axis
  then PyE.modify (with_log_y logarithmic)
  else PyE.modify (with_log_x logarithmic).

Definition apply_scale : W unit :=
  (self <- PyE.get ;;
   call (SetYScale (log_y self)) ;;;
   call (SetXScale (log_x self)))%pye.

Definition set_max_crosshair_count (limit : Z) : W unit :=
  PyE.modify (with_max_crosshairs limit).

Definition set_max_line_count (limit : Z) : W unit :=
  PyE.modify (with_max_crosshairs (limit + 1)).

(** [self.temp_lines.pop(0)] *)
Definition pop_first : W Line2D :=
  fun self =>
    match temp_lines self with
    | [] => (self, inl IndexError)
    | item :: rest => (with_temp_lines rest self, inr item)
    end.

(** [max_count or self.max_crosshairs]: [None] and [0] are false. *)
Definition or_default (max_count : option Z) (default : Z) : Z :=
  match max_count with
  | Some m => if m =? 0 then default else m
  | None => default
  end.

Definition remove_crosshairs (all : bool) (max_count : option Z) : W unit :=
  (self <- PyE.get ;;
   let num := Z.of_nat (length (temp_lines self)) / 2 in
   let max_count := or_default max_count (max_crosshairs self) in
   let to_remove :=
     if all then Z.of_nat (length (temp_lines self))
     else Z.max 0 (num - max_count) * 2 in
   PyE.repeat_n (Z.to_nat to_remove)
     (item <- pop_first ;;
      PyE.try_pass (artist_remove (line_id item))))%pye.

Definition remove_temp_rectangle : W unit :=
  (self <- PyE.get ;;
   match temp_patch self with
   | Some patch =>
       artist_remove patch ;;;
       PyE.modify (with_temp_patch None)
   | None => PyE.ret tt
   end)%pye.

Definition remove_temp : W unit := remove_temp_rectangle.

Definition pre_update : W unit := remove_temp.

Definition hor_line (y : Coord) : W Line2D := new_line true y.

Definition ver_line (x : Coord) : W Line2D := new_line false x.

Definition plot_hor (y : Coord) : W unit :=
  (line <- hor_line y ;;
   PyE.modify (fun self => with_temp_lines (temp_lines self ++ [line]) self))%pye.

Definition plot_ver (x : Coord) : W unit :=
  (line <- ver_line x ;;
   PyE.modify (fun self => with_temp_lines (temp_lines self ++ [line]) self))%pye.

Definition draw_crosshair (x y : Coord) : W unit :=
  (plot_hor y ;;;
   plot_ver x ;;;
   self <- PyE.get ;;
   remove_crosshairs false (Some (max_crosshairs self - 1)) ;;;
   self <- PyE.get ;;
   PyE.for_each (crosshair_listeners self)
     (fun l => call (CrosshairListener l x y)))%pye.

Definition zoom_to (r : Rect) (save_state trigger_listeners : bool) : W unit :=
  (axes_set_xlim (rect_x1 r) (rect_x2 r) ;;;
   axes_set_ylim (rect_y1 r) (rect_y2 r) ;;;
   update ;;;
   PyE.when trigger_listeners
     (self <- PyE.get ;;
      PyE.for_each (zoom_listeners self) (fun l => call (ZoomListener l r))) ;;;
   PyE.when save_state (call ToolbarPushCurrent))%pye.

Definition on_zoom : W unit :=
  (self <- PyE.get ;;
   let x1 := fst (axes_xlim self) in
   let x2 := snd (axes_xlim self) in
   let y1 := fst (axes_ylim self) in
   let y2 := snd (axes_ylim self) in
   let r := Rect4 x1 y1 x2 y2 in
   PyE.for_each (zoom_listeners self) (fun func => call (ZoomListener func r)))%pye.

(** [l.remove(x)] of a Python list: the first occurrence goes, and
    [ValueError] is raised when there is none. *)
Fixpoint list_remove (x : nat) (l : list nat) : option (list nat) :=
  match l with
  | [] => None
  | y :: rest =>
      if Nat.eqb y x then Some rest
      else match list_remove x rest with
           | Some rest' => Some (y :: rest')
           | None => None
           end
  end.

Definition add_zoom_listener (func : nat) : W unit :=
  PyE.modify (fun self => with_zoom_listeners (zoom_listeners self ++ [func]) self).

Definition remove_zoom_listener (func : nat) : W unit :=
  fun self =>
    match list_remove func (zoom_listeners self) with
    | Some l => (with_zoom_listeners l self, inr tt)
    | None => (self, inl ValueError)
    end.

Definition add_crosshair_listener (func : nat) : W unit :=
  PyE.modify (fun self =>
    with_crosshair_listeners (crosshair_listeners self ++ [func]) self).

Definition remove_crosshair_listener (func : nat) : W unit :=
  fun self =>
    match list_remove func (crosshair_listeners self) with
    | Some l => (with_crosshair_listeners l self, inr tt)
    | None => (self, inl ValueError)
    end.

(** A mouse event of matplotlib: the button, and the data coordinates,
    [None] outside the axes. *)
Record MouseEvent : Type := {
  button : MouseButton;
  xdata : option Coord;
  ydata : option Coord
}.

Definition is_left (b : MouseButton) : bool :=
  match b with LEFT => true | _ => false end.

(** [x and y] as the condition of an [if], for two optional floats. *)
Definition both_true (x y : option Coord) : option (Coord * Coord) :=
  match x, y with
  | Some a, Some b => if truth a && truth b then Some (a, b) else None
  | _, _ => None
  end.

Definition on_click (event : MouseEvent) : W unit :=
  if is_left (button event) then
    match both_true (xdata event) (ydata event) with
    | Some (x, y) =>
        (self <- PyE.get ;;
         PyE.when (mouse_zoom_enabled self)
           (PyE.modify (with_rect (Some (Rect2 x y)))) ;;;
         self <- PyE.get ;;
         PyE.when (click_crosshair_enabled self) (draw_crosshair x y) ;;;
         pre_update ;;;
         update)%pye
    | None => PyE.ret tt
    end
  else PyE.ret tt.

Definition on_release (event : MouseEvent) : W unit :=
  if is_left (button event) then
    match both_true (xdata event) (ydata event) with
    | Some (x, y) =>
        (self <- PyE.get ;;
         match mouse_zoom_enabled self, rect self with
         | true, Some r =>
             zoom_to r true true ;;;
             PyE.modify (with_rect None)
         | _, _ => PyE.ret tt
         end ;;;
         self <- PyE.get ;;
         PyE.when (show_crosshair self)
           (PyE.when (2 <=? length (selected_plots self))%nat
              (PyE.modify (with_show_crosshair false))) ;;;
         pre_update ;;;
         update)%pye
    | None => PyE.ret tt
    end
  else PyE.ret tt.

(** The widget after its [n] oldest temporary lines were popped and
    taken off the axes. *)
Definition lines_dropped (n : nat) (self : Widget) : Widget :=
  with_axes_artists
    (filter (fun a => a ∉ map line_id (take n (temp_lines self)))
       (axes_artists self))
    (with_temp_lines (drop n (temp_lines self)) self).

(** The limit that [draw_crosshair] ends up applying. *)
Definition crosshair_limit (self : Widget) : Z :=
  or_default (Some (max_crosshairs self - 1)) (max_crosshairs self).

(** The widget after [plot_hor(y)] and [plot_ver(x)]. *)
Definition crosshair_plotted (x y : Coord) (self : Widget) : Widget :=
  let id := fresh_artist self in
  with_temp_lines
    ((temp_lines self
      ++ [{| line_id := id; horizontal := true; position := y |}])
     ++ [{| line_id := S id; horizontal := false; position := x |}])
    (with_fresh_artist (S (S id))
       (with_axes_artists ((axes_artists self ++ [id]) ++ [S id]) self)).

(** [draw_crosshair] at each point in turn. *)
Definition draw_crosshairs (points : list (Coord * Coord)) : W unit :=
  PyE.for_each points (fun p => draw_crosshair (fst p) (snd p)).

(** The widget after [zoom_to(rect, save_state, trigger_listeners)],
    when matplotlib has set the limits to [xlim] and [ylim]. *)
Definition zoomed (r : Rect) (xlim ylim : Coord * Coord)
    (save_state trigger_listeners : bool) (self : Widget) : Widget :=
  with_calls
    (calls self
     ++ [QWidgetUpdate; CanvasDraw]
     ++ (if trigger_listeners
         then map (fun f => ZoomListener f r) (zoom_listeners self)
         else [])
     ++ (if save_state then [ToolbarPushCurrent] else []))
    (with_axes_ylim ylim (with_axes_xlim xlim self)).

(** A release that has a zoom to make, with mouse zoom enabled and a
    rectangle pending, and matplotlib raising for its limits. *)
Definition zoom_refused (self : Widget) : bool :=
  match mouse_zoom_enabled self, rect self with
  | true, Some r =>
      match set_xlim self (rect_x1 r) (rect_x2 r) with
      | inl _ => true
      | inr xlim =>
          match set_ylim (with_axes_xlim xlim self) (rect_y1 r) (rect_y2 r) with
          | inl _ => true
          | inr _ => false
          end
      end
  | _, _ => false
  end.

(** A mouse event that the click and release handlers act upon: the left
    button, at a point whose coordinates are both there and both true as
    a Python condition. *)
Definition acted_upon (event : MouseEvent) : bool :=
  is_left (button event)
  && match both_true (xdata event) (ydata event) with
     | Some _ => true
     | None => false
     end.

(** The crosshairs on the plot: two lines each. *)
Definition crosshair_count (self : Widget) : Z :=
  Z.of_nat (length (temp_lines self)) / 2.

End Widget.


End MatplotlibWidget.

(** ** bispectrum_analysis.py: the body of [_bispectrum_analysis] *)

Module Bispectrum.
Import Signals Workers.

(** [for x in xs: acc = body(x, acc)], a loop that updates its
    variables and may raise. *)
Fixpoint for_fold {S A X} (xs : list X) (body : X -> A -> Py.M S A) (acc : A)
  : Py.M S A :=
  match xs with
  | [] => Py.ret acc
  | x :: xs' => Py.bind (body x acc) (for_fold xs' body)
  end.

Section Body.

Variable PyObj : Type.

(** The attributes of [BAParams] that the function reads. [surr_count]
    is an integer or [None]; [preprocess] stands for its truth value. *)
Record BAParams : Type := {
  fs : PyObj;
  preprocess : bool;
  surr_count : option nat;
  nv : PyObj;
  fmax : PyVal PyObj;
  fmin : PyVal PyObj;
  f0 : PyVal PyObj
}.

(** The five values that [bispec_wav_new.calculate] returns. *)
Record EngineOut : Type := {
  bisp : PyObj;
  freq : PyObj;
  amp_wt1 : PyObj;
  amp_wt2 : PyObj;
  opt : gmap string PyObj
}.

(** The engine and the array library, outside the repository. The
    surrogates are random: [wav_surrogate_calculate x j] is the one drawn
    from [x] at turn [j] of the loop. *)
Variable differ : PyObj -> PyObj -> bool.     (* np.sum(np.abs(a - b)) != 0 *)
Variable truthy : PyObj -> bool.              (* the truth value of a number *)
Variable tolist : PyObj -> PyObj.
Variable halve : PyObj -> PyObj.              (* fs / 2 *)
Variable nan one : PyObj.                     (* math.nan and 1 *)
Variable bispec_wav_new_calculate :
  PyObj -> PyObj -> PyObj -> gmap string PyObj -> exn + EngineOut.
Variable wav_surrogate_calculate : PyObj -> nat -> exn + PyObj.
Variable zeros : PyObj -> nat -> PyObj.       (* zeros(a.shape + (ns,)) *)
Variable empty : PyObj -> PyObj.              (* np.empty(a.shape) *)
Variable fill_nan : PyObj -> PyObj.           (* a.fill(NAN) *)
Variable set_layer : PyObj -> nat -> PyObj -> PyObj.  (* a[:, :, j] = b *)
Variable abs_ : PyObj -> PyObj.
Variable matlab_to_numpy : PyObj -> PyObj.
Variable avg_ampl_pow : PyObj -> PyObj * PyObj.
Variable square : PyObj -> PyObj.

(** [x or default] for a value that may be [None] or a false number. *)
Definition py_or (x : PyVal PyObj) (default : PyObj) : PyObj :=
  match x with
  | Some v => if truthy v then v else default
  | None => default
  end.

(** [opt[k] = matlab_to_numpy(opt[k])] *)
Definition convert_entry (k : string) (d : gmap string PyObj)
  : Py.M unit (gmap string PyObj) :=
  match d !! k with
  | Some v => Py.ret (<[k := matlab_to_numpy v]> d)
  | None => Py.raise KeyError
  end.

(** What the function returns: the name, the seventeen arrays that
    follow it, and the dict [opt] that closes the tuple. *)
Definition bispectrum_analysis_body
    (sig1 sig2 : TimeSeries PyObj) (params : BAParams)
  : Py.M unit (string * list PyObj * gmap string PyObj) :=
  (let name := name sig1 in
   let sig1 := signal sig1 in
   let sig2 := signal sig2 in
   let sig1list := tolist sig1 in
   let sig2list := tolist sig2 in
   let unique_signals := differ sig1 sig2 in
   let fs := fs params in
   let preprocess := preprocess params in
   let ns := match surr_count params with Some n => n | None => O end in
   let nv := nv params in
   let fmax := py_or (fmax params) (halve fs) in
   let fmin := py_or (fmin params) nan in
   let f0 := py_or (f0 params) one in
   let params : gmap string PyObj :=
     <["f0" := f0]> (<["fmax" := fmax]> (<["fmin" := fmin]> (<["nv" := nv]> ∅))) in
   r <-
     (if unique_signals then
        xxx <- Py.call (bispec_wav_new_calculate sig1list sig1list fs params) ;;
        ppp <- Py.call (bispec_wav_new_calculate sig2list sig2list fs params) ;;
        xpp <- Py.call (bispec_wav_new_calculate sig1list sig2list fs params) ;;
        pxx <- Py.call (bispec_wav_new_calculate sig2list sig1list fs params) ;;
        let bispxxx := bisp xxx in
        let surrxxx := zeros bispxxx ns in
        let surrppp := zeros bispxxx ns in
        let surrxpp := zeros bispxxx ns in
        let surrpxx := zeros bispxxx ns in
        surr <-
          for_fold (seq 0 ns)
            (fun j surr =>
               surr1 <- Py.call (wav_surrogate_calculate sig1list j) ;;
               surr2 <- Py.call (wav_surrogate_calculate sig2list j) ;;
               a <- Py.call (bispec_wav_new_calculate surr1 surr1 fs params) ;;
               b <- Py.call (bispec_wav_new_calculate surr2 surr2 fs params) ;;
               c <- Py.call (bispec_wav_new_calculate surr1 surr2 fs params) ;;
               d <- Py.call (bispec_wav_new_calculate surr2 surr1 fs params) ;;
               Py.ret (set_layer (fst (fst (fst surr))) j (abs_ (bisp a)),
                       set_layer (snd (fst (fst surr))) j (abs_ (bisp b)),
                       set_layer (snd (fst surr)) j (abs_ (bisp c)),
                       set_layer (snd surr) j (abs_ (bisp d))))
            (surrxxx, surrppp, surrxpp, surrpxx) ;;
        Py.ret (xpp, amp_wt2 xpp,
                [bispxxx; bisp ppp; bisp xpp; bisp pxx;
                 fst (fst (fst surr)); snd (fst (fst surr));
                 snd (fst surr); snd surr])
      else
        xxx <- Py.call (bispec_wav_new_calculate sig1list sig1list fs params) ;;
        let bispxxx := abs_ (bisp xxx) in
        let amp_wt2 :=
          if preprocess then fill_nan (empty (amp_wt1 xxx)) else amp_wt2 xxx in
        let surrxxx := zeros bispxxx ns in
        let bispppp := fill_nan (empty bispxxx) in
        let bispxpp := fill_nan (empty bispxxx) in
        let bisppxx := fill_nan (empty bispxxx) in
        let surrppp := fill_nan (zeros bispxxx ns) in
        let surrxpp := fill_nan (zeros bispxxx ns) in
        let surrpxx := fill_nan (zeros bispxxx ns) in
        surrxxx <-
          for_fold (seq 0 ns)
            (fun i surrxxx =>
               surr1 <- Py.call (wav_surrogate_calculate sig1list i) ;;
               a <- Py.call (bispec_wav_new_calculate surr1 surr1 fs params) ;;
               Py.ret (set_layer surrxxx i (abs_ (bisp a))))
            surrxxx ;;
        Py.ret (xxx, amp_wt2,
                [bispxxx; bispppp; bispxpp; bisppxx;
                 surrxxx; surrppp; surrxpp; surrpxx])) ;;
   let out := fst (fst r) in
   let amp_wt1 := amp_wt1 out in
   let amp_wt2 := snd (fst r) in
   let freq := matlab_to_numpy (freq out) in
   let avg1 := avg_ampl_pow amp_wt1 in
   let avg2 := avg_ampl_pow amp_wt2 in
   let pow_wt1 := square amp_wt1 in
   let pow_wt2 := square amp_wt2 in
   opt <- convert_entry "PadLR1" (opt out) ;;
   opt <- convert_entry "PadLR2" opt ;;
   opt <- convert_entry "twf1" opt ;;
   opt <- convert_entry "twf2" opt ;;
   Py.ret (name,
           [freq; amp_wt1; pow_wt1; fst avg1; snd avg1;
            amp_wt2; pow_wt2; fst avg2; snd avg2] ++ snd r,
           opt))%py.

End Body.

End Bispectrum.

(** ** More concrete inputs *)

Module MoreInputs.
Import MatplotlibWidget.

(** Coordinates as integers; a rectangle as its four coordinates. *)
Definition truth (x : Z) : bool := negb (x =? 0).

Definition rect2 (x y : Z) : Z * Z * Z * Z := (x, y, x, y).

Definition rect_x1 (r : Z * Z * Z * Z) : Z := fst (fst (fst r)).
Definition rect_y1 (r : Z * Z * Z * Z) : Z := snd (fst (fst r)).
Definition rect_x2 (r : Z * Z * Z * Z) : Z := snd (fst r).
Definition rect_y2 (r : Z * Z * Z * Z) : Z := snd r.

Definition hline (id : nat) (y : Z) : Line2D Z :=
  {| line_id := id; horizontal := true; position := y |}.

Definition vline (id : nat) (x : Z) : Line2D Z :=
  {| line_id := id; horizontal := false; position := x |}.

(** A widget showing two crosshairs, at (3, 4) and at (5, 6), with two
    crosshair listeners and one zoom listener. *)
Definition widget (limit : Z) : Widget Z (Z * Z * Z * Z) :=
  {| log_y := false; log_x := false;
     temp_lines := [hline 0 4; vline 1 3; hline 2 6; vline 3 5];
     selected_plots := [];
     show_crosshair := true;
     temp_patch := None;
     rect := None;
     zoom_listeners := [5%nat];
     mouse_zoom_enabled := false;
     click_crosshair_enabled := true;
     max_crosshairs := limit;
     crosshair_listeners := [7%nat; 8%nat];
     axes_artists := [0%nat; 1%nat; 2%nat; 3%nat];
     fresh_artist := 4;
     axes_xlim := (0, 10);
     axes_ylim := (0, 10);
     calls := [] |}.

Definition right_click : MouseEvent Z :=
  {| button := RIGHT; xdata := Some 3; ydata := Some 4 |}.

Definition left_click : MouseEvent Z :=
  {| button := LEFT; xdata := Some 9; ydata := Some 8 |}.

(** The widget with mouse zoom on, after a left click at (9, 8): the
    rectangle of the click, of no width and no height, is pending. *)
Definition clicked_widget : Widget Z (Z * Z * Z * Z) :=
  fst (on_click Z (Z * Z * Z * Z) truth rect2 left_click
         (with_mouse_zoom_enabled _ _ true (widget 3))).

(** Stand-ins for [set_xlim] and [set_ylim]: one that moves two
    identical limits apart and takes any others as they are, and one
    that raises for every limit. *)
Definition set_lim (self : Widget Z (Z * Z * Z * Z)) (a b : Z)
  : widget_exn + (Z * Z) :=
  if a =? b then inr (a - 1, b + 1) else inr (a, b).

Definition refuse_lim (self : Widget Z (Z * Z * Z * Z)) (a b : Z)
  : widget_exn + (Z * Z) :=
  inl ValueError.

(** A dict without [twf2]. *)
Definition opt_without_twf2 : gmap string Z :=
  <["PadLR1" := 1]> (<["PadLR2" := 2]> (<["twf1" := 3]> ∅)).

(** Stand-ins for the bispectrum engine and the array library. *)
Definition engine_bispec (x y fs : Z) (params : gmap string Z)
  : exn + Bispectrum.EngineOut Z :=
  inr {| Bispectrum.bisp := x + y; Bispectrum.freq := 1;
         Bispectrum.amp_wt1 := 2; Bispectrum.amp_wt2 := 3;
         Bispectrum.opt := Inputs.opt0 |}.

Definition engine_surrogate (x : Z) (turn : nat) : exn + Z :=
  inr (x + Z.of_nat turn).

Definition ba_params : Bispectrum.BAParams Z :=
  {| Bispectrum.fs := 10; Bispectrum.preprocess := true;
     Bispectrum.surr_count := Some 2%nat; Bispectrum.nv := 16;
     Bispectrum.fmax := None; Bispectrum.fmin := None;
     Bispectrum.f0 := Some 1 |}.

Definition signal_of (n : string) (samples : Z) : Signals.TimeSeries Z :=
  {| Signals.name := n; Signals.signal := samples; Signals.frequency := 10;
     Signals.output_data := Signals.empty_output |}.

Definition bispectrum_run (sig1 sig2 : Signals.TimeSeries Z) :=
  Bispectrum.bispectrum_analysis_body Z
    (fun a b => negb (a =? b)) truth (fun x => x) (fun x => x / 2) (-1) 1
    engine_bispec engine_surrogate
    (fun a ns => 0) (fun a => 0) (fun a => -1) (fun a j b => a + b) Z.abs
    (fun x => x) (fun a => (a, a * a)) (fun a => a * a)
    sig1 sig2 ba_params tt.

End MoreInputs.

(** * Properties *)

(** Closed decidable goals (membership, distinctness) by evaluation. *)
Ltac decide_by_computation :=
  refine (bool_decide_unpack _ _); vm_compute; exact I.

(** ** terminate_tree *)

Module TerminateTree.
Import MpUtils.








Section Loop.
Variable gone : Z -> bool.

Lemma terminate_there c tr :
  gone c = false ->
  psutil_terminate gone c tr = (tr ++ [ChildTerminate c], inr tt).
Proof. intros H. unfold psutil_terminate. now rewrite H. Qed.

Lemma terminate_gone c tr :
  gone c = true ->
  psutil_terminate gone c tr = (tr, inl NoSuchProcess).
Proof. intros H. unfold psutil_terminate. now rewrite H. Qed.


Lemma loop_stops cs1 c cs2 tr :
  (forall x, x ∈ cs1 -> gone x = false) ->
  gone c = true ->
  Py.for_each (cs1 ++ c :: cs2) (fun child => psutil_terminate gone child) tr
  = (tr ++ map ChildTerminate cs1, inl NoSuchProcess).
Proof.
  revert tr. induction cs1 as [|x cs1 IH]; intros tr Hall Hc; simpl.
  - unfold Py.bind. rewrite terminate_gone by exact Hc.
    now rewrite app_nil_r.
  - unfold Py.bind. rewrite terminate_there by (apply Hall; left).
    rewrite IH by (try assumption; intros; apply Hall; now right).
    now rewrite <- app_assoc.
Qed.


End Loop.




(** C4: for a handle whose process has already exited, [terminate_tree]
    does not raise: no descendant is looked for or signalled, the only
    request is the one to the handle, and the call returns normally. *)
Theorem terminate_tree_exited_is_noop os gone process :
  find_proc (pid process) os = None ->
  outcome_of os gone process = inr tt
  /\ requests_of os gone process = [ProcessTerminate (pid process)].
Proof.
  intros Hfind. unfold outcome_of, requests_of.
  unfold terminate_tree, Py.try_finally, Py.try_except, Py.bind, psutil_Process.
  rewrite Hfind. simpl. split; reflexivity.
Qed.

Lemma terminate_tree_exited_is_noop_witness :
  outcome_of Inputs.os_worker_exited Inputs.gone_102 Inputs.worker = inr tt
  /\ requests_of Inputs.os_worker_exited Inputs.gone_102 Inputs.worker
     = [ProcessTerminate 100].
Proof.
  apply (terminate_tree_exited_is_noop
           Inputs.os_worker_exited Inputs.gone_102 Inputs.worker).
  reflexivity.
Defined.


(** C10: when a listed descendant has exited by the time it is asked,
    the loop is abandoned there: the descendants listed before it have
    been signalled, it and the ones after it are not, the handle's own
    process is still asked to terminate, and the call returns without
    raising. *)
Theorem terminate_tree_abandons_loop os gone process t cs1 c cs2 :
  find_proc (pid process) os = Some t ->
  children_recursive t = cs1 ++ c :: cs2 ->
  (forall x, x ∈ cs1 -> gone x = false) ->
  gone c = true ->
  requests_of os gone process
  = map ChildTerminate cs1 ++ [ProcessTerminate (pid process)]
  /\ outcome_of os gone process = inr tt
  /\ (forall x, ChildTerminate x ∈ requests_of os gone process -> x ∈ cs1).
Proof.
  intros Hfind Hcs Hall Hc.
  assert (Hrun : terminate_tree os gone process []
                 = (map ChildTerminate cs1 ++ [ProcessTerminate (pid process)],
                    inr tt)).
  { unfold terminate_tree, Py.try_finally, Py.try_except, Py.bind, psutil_Process.
    rewrite Hfind. unfold Py.ret at 1. rewrite Hcs.
    rewrite (loop_stops gone cs1 c cs2 [] Hall Hc). reflexivity. }
  unfold requests_of, outcome_of. rewrite Hrun. simpl.
  split; [reflexivity|]. split; [reflexivity|].
  intros x Hx. apply elem_of_app in Hx as [Hx | Hx].
  - apply list_elem_of_fmap in Hx as (y & Hy & Hin). now inversion Hy; subst.
  - apply list_elem_of_singleton in Hx. discriminate.
Qed.

Lemma terminate_tree_abandons_loop_witness :
  requests_of Inputs.os_live Inputs.gone_102 Inputs.worker
  = [ChildTerminate 101; ChildTerminate 104; ProcessTerminate 100]
  /\ outcome_of Inputs.os_live Inputs.gone_102 Inputs.worker = inr tt
  /\ (forall x, ChildTerminate x
                ∈ requests_of Inputs.os_live Inputs.gone_102 Inputs.worker ->
                x ∈ [101; 104]).
Proof.
  apply (terminate_tree_abandons_loop
           Inputs.os_live Inputs.gone_102 Inputs.worker Inputs.worker_tree
           [101; 104] 102 [103]).
  - reflexivity.
  - reflexivity.
  - intros x Hx. apply elem_of_cons in Hx as [-> | Hx]; [reflexivity|].
    apply list_elem_of_singleton in Hx. subst x. reflexivity.
  - reflexivity.
Defined.

End TerminateTree.


(** ** The result handlers of the presenter *)

Module Collector.
Import Signals REPresenter.

Section Lists.

Context {PyObj : Type}.
Implicit Types (l : list (TimeSeries PyObj)) (s : TimeSeries PyObj) (n : string).

Lemma get_Some n l s : get n l = Some s -> s ∈ l /\ name s = n.
Proof.
  induction l as [|x l IH]; simpl; [discriminate|].
  destruct (String.eqb_spec (name x) n) as [Heq | Hne].
  - intros [= ->]. split; [left | exact Heq].
  - intros H. destruct (IH H) as [Hin Hn]. split; [now right | exact Hn].
Qed.

Lemma get_None n l s : get n l = None -> s ∈ l -> name s <> n.
Proof.
  induction l as [|x l IH]; simpl; intros Hget Hin.
  - inversion Hin.
  - destruct (String.eqb_spec (name x) n) as [Heq | Hne]; [discriminate|].
    apply elem_of_cons in Hin as [-> | Hin]; [exact Hne | now apply IH].
Qed.

Lemma get_is_Some n l : n ∈ map name l -> exists s, get n l = Some s.
Proof.
  intros Hin. destruct (get n l) as [s|] eqn:Hget; [now exists s|].
  apply list_elem_of_fmap in Hin as (x & -> & Hx).
  now destruct (get_None _ _ x Hget Hx).
Qed.

(** A signal of another name is still in the list after [put]. *)
Lemma put_keeps n s' l s : s ∈ l -> name s <> n -> s ∈ put n s' l.
Proof.
  induction l as [|x l IH]; simpl; intros Hin Hne; [inversion Hin|].
  apply elem_of_cons in Hin as [-> | Hin].
  - destruct (String.eqb_spec (name x) n); [contradiction | left].
  - destruct (String.eqb_spec (name x) n); right; [exact Hin | now apply IH].
Qed.

Lemma put_names n s' l :
  name s' = n -> map name (put n s' l) = map name l.
Proof.
  intros Hn. induction l as [|x l IH]; simpl; [reflexivity|].
  destruct (String.eqb_spec (name x) n) as [Heq | Hne]; simpl.
  - now rewrite Hn, Heq.
  - now rewrite IH.
Qed.

(** With distinct names, [put] leaves nothing of the old object behind. *)
Lemma put_elements n s' l s :
  NoDup (map name l) -> s ∈ put n s' l -> s = s' \/ (s ∈ l /\ name s <> n).
Proof.
  induction l as [|x l IH]; simpl; intros Hnd Hin; [inversion Hin|].
  apply NoDup_cons in Hnd as [Hx Hnd].
  destruct (String.eqb_spec (name x) n) as [Heq | Hne].
  - apply elem_of_cons in Hin as [-> | Hin]; [now left|].
    right. split; [now right|]. intros Hs. apply Hx. rewrite Heq, <- Hs.
    apply list_elem_of_fmap. now exists s.
  - apply elem_of_cons in Hin as [-> | Hin]; [right; split; [left | exact Hne]|].
    destruct (IH Hnd Hin) as [-> | [Hl Hs]]; [now left|].
    right. split; [now right | exact Hs].
Qed.

Lemma forallb_pending (has : TimeSeries PyObj -> bool) l s :
  s ∈ l -> has s = false -> forallb has l = false.
Proof.
  intros Hin Hs. destruct (forallb has l) eqn:Hall; [|reflexivity].
  rewrite forallb_forall in Hall.
  rewrite (Hall s) in Hs; [discriminate | now apply list_elem_of_In].
Qed.

Lemma forallb_ready (has : TimeSeries PyObj -> bool) l :
  (forall s, s ∈ l -> has s = true) -> forallb has l = true.
Proof.
  intros Hall. apply forallb_forall. intros s Hs. apply Hall.
  now apply list_elem_of_In.
Qed.

End Lists.

Section Handlers.

Context {PyObj : Type}.
Variable set_band : PyObj -> PyObj -> PyObj -> PyObj -> TimeSeries PyObj
                    -> exn + TimeSeries PyObj.
Implicit Types (self : Presenter PyObj) (s : TimeSeries PyObj).

(** One call of each handler, case by case. *)
Lemma deliver_ridge_run r self :
  deliver_ridge r self
  = match get (r_name r) (signals self) with
    | None => (self, inl AttributeError)
    | Some sig =>
        let l := put (r_name r) (ridge_update r sig) (signals self) in
        if forallb has_ridge l
        then (fire_ridge self l, inr tt)
        else (set_signals l self, inr tt)
    end.
Proof.
  unfold deliver_ridge, on_ridge_completed, Py.bind, Py.get.
  destruct (get (r_name r) (signals self)) as [sig|]; [|reflexivity].
  unfold Py.modify at 1. cbn [signals set_signals].
  fold (ridge_update r sig). unfold has_ridge.
  destruct (forallb _ _); reflexivity.
Qed.

Lemma deliver_filter_run r self :
  deliver_filter set_band r self
  = match get (f_name r) (signals self) with
    | None => (self, inl AttributeError)
    | Some d =>
        match set_band (f_interval _ r) (f_bands _ r) (f_phase _ r) (f_amp _ r) d with
        | inl e => (self, inl e)
        | inr d' =>
            let l := put (f_name r) d' (signals self) in
            if forallb has_band l
            then (fire_filter self l, inr tt)
            else (set_signals l self, inr tt)
        end
    end.
Proof.
  unfold deliver_filter, on_filter_completed, Py.bind, Py.get, Py.call.
  destruct (get (f_name r) (signals self)) as [d|]; [|reflexivity].
  destruct (set_band _ _ _ _ d) as [e|d']; [reflexivity|].
  unfold Py.modify at 1. cbn [signals set_signals]. unfold has_band.
  destruct (forallb _ _); reflexivity.
Qed.

Lemma ridge_update_has (r : RidgeResult PyObj) (sig : TimeSeries PyObj) : has_ridge (ridge_update r sig) = true.
Proof. reflexivity. Qed.

Lemma ridge_update_name (r : RidgeResult PyObj) (sig : TimeSeries PyObj) : name (ridge_update r sig) = name sig.
Proof. reflexivity. Qed.


Lemma deliver_all_app {R} (h : R -> Py.M (Presenter PyObj) unit) rs1 rs2 self :
  deliver_all h (rs1 ++ rs2) self = deliver_all h rs2 (deliver_all h rs1 self).
Proof. revert self. induction rs1 as [|r rs1 IH]; intros self; simpl; auto. Qed.

(** *** No completion while an item is pending *)

Lemma ridge_quiet (r : RidgeResult PyObj) self s :
  s ∈ signals self -> has_ridge s = false -> name s <> r_name r ->
  s ∈ signals (fst (deliver_ridge r self))
  /\ ridge_completed_calls (fst (deliver_ridge r self))
     = ridge_completed_calls self.
Proof.
  intros Hin Hs Hne. rewrite deliver_ridge_run.
  destruct (get (r_name r) (signals self)) as [sig|]; [|now split].
  cbn zeta.
  pose proof (put_keeps (r_name r) (ridge_update r sig) _ s Hin Hne) as Hkept.
  rewrite (forallb_pending has_ridge _ s Hkept Hs). now split.
Qed.

Lemma filter_quiet (r : FilterResult PyObj) self s :
  s ∈ signals self -> has_band s = false -> name s <> f_name r ->
  s ∈ signals (fst (deliver_filter set_band r self))
  /\ filter_completed_calls (fst (deliver_filter set_band r self))
     = filter_completed_calls self.
Proof.
  intros Hin Hs Hne. rewrite deliver_filter_run.
  destruct (get (f_name r) (signals self)) as [d|]; [|now split].
  destruct (set_band _ _ _ _ d) as [e|d']; [now split|].
  cbn zeta.
  pose proof (put_keeps (f_name r) d' _ s Hin Hne) as Hkept.
  rewrite (forallb_pending has_band _ s Hkept Hs). now split.
Qed.

Lemma ridge_never_fires (rs : list (RidgeResult PyObj)) self s :
  s ∈ signals self -> has_ridge s = false -> name s ∉ map r_name rs ->
  ridge_completed_calls (deliver_all deliver_ridge rs self)
  = ridge_completed_calls self.
Proof.
  revert self. induction rs as [|r rs IH]; intros self Hin Hs Hnot; [reflexivity|].
  simpl in *. apply not_elem_of_cons in Hnot as [Hne Hnot].
  destruct (ridge_quiet r self s Hin Hs Hne) as [Hin' Hcalls].
  rewrite (IH _ Hin' Hs Hnot). exact Hcalls.
Qed.

Lemma filter_never_fires (rs : list (FilterResult PyObj)) self s :
  s ∈ signals self -> has_band s = false -> name s ∉ map f_name rs ->
  filter_completed_calls (deliver_all (deliver_filter set_band) rs self)
  = filter_completed_calls self.
Proof.
  revert self. induction rs as [|r rs IH]; intros self Hin Hs Hnot; [reflexivity|].
  simpl in *. apply not_elem_of_cons in Hnot as [Hne Hnot].
  destruct (filter_quiet r self s Hin Hs Hne) as [Hin' Hcalls].
  rewrite (IH _ Hin' Hs Hnot). exact Hcalls.
Qed.

(** C2: as long as one signal of the batch has no result recorded and none
    is delivered for it, the completion callback is not invoked, whatever
    else is delivered and in whatever order; this holds for the ridge
    handler and for the filter handler. A pending item of a signal that
    has a result recorded does not hold the callback back. *)
Theorem no_completion_while_item_pending self s :
  s ∈ signals self ->
  (forall rs : list (RidgeResult PyObj),
      has_ridge s = false -> name s ∉ map r_name rs ->
      ridge_completed_calls (deliver_all deliver_ridge rs self)
      = ridge_completed_calls self)
  /\ (forall rs : list (FilterResult PyObj),
      has_band s = false -> name s ∉ map f_name rs ->
      filter_completed_calls (deliver_all (deliver_filter set_band) rs self)
      = filter_completed_calls self).
Proof.
  intros Hin. split; intros rs Hs Hnot.
  - now apply ridge_never_fires with s.
  - now apply filter_never_fires with s.
Qed.

(** *** Completion at the last result *)

Lemma deliver_ridge_names (r : RidgeResult PyObj) self :
  map name (signals (fst (deliver_ridge r self))) = map name (signals self).
Proof.
  rewrite deliver_ridge_run.
  destruct (get (r_name r) (signals self)) as [sig|] eqn:Hget; [|reflexivity].
  cbn zeta. apply get_Some in Hget as [_ Hn].
  destruct (forallb _ _); simpl; apply put_names;
    now rewrite ridge_update_name.
Qed.

Lemma deliver_all_ridge_names (rs : list (RidgeResult PyObj)) self :
  map name (signals (deliver_all deliver_ridge rs self)) = map name (signals self).
Proof.
  revert self. induction rs as [|r rs IH]; intros self; [reflexivity|].
  simpl. now rewrite IH, deliver_ridge_names.
Qed.

(** With distinct names, a signal has ridge data after a delivery when the
    result was for it, or when it had some before. *)
Lemma ridge_records (r : RidgeResult PyObj) self (D : list string) :
  NoDup (map name (signals self)) ->
  (forall s, s ∈ signals self -> name s ∈ D -> has_ridge s = true) ->
  forall s, s ∈ signals (fst (deliver_ridge r self)) ->
            name s ∈ r_name r :: D -> has_ridge s = true.
Proof.
  intros Hnd Hinv s. rewrite deliver_ridge_run.
  destruct (get (r_name r) (signals self)) as [sig|] eqn:Hget.
  - cbn zeta. intros Hin Hname.
    assert (Hin' : s ∈ put (r_name r) (ridge_update r sig) (signals self))
      by (destruct (forallb _ _); exact Hin).
    destruct (put_elements _ _ _ _ Hnd Hin') as [-> | [Hold Hne]].
    + apply ridge_update_has.
    + apply Hinv; [exact Hold|].
      apply elem_of_cons in Hname as [Heq | HD]; [contradiction | exact HD].
  - simpl. intros Hin Hname. apply Hinv; [exact Hin|].
    apply elem_of_cons in Hname as [Heq | HD]; [|exact HD].
    now destruct (get_None _ _ s Hget Hin).
Qed.

Lemma deliver_all_ridge_records (rs : list (RidgeResult PyObj)) self (D : list string) :
  NoDup (map name (signals self)) ->
  (forall s, s ∈ signals self -> name s ∈ D -> has_ridge s = true) ->
  forall s, s ∈ signals (deliver_all deliver_ridge rs self) ->
            name s ∈ map r_name rs \/ name s ∈ D -> has_ridge s = true.
Proof.
  revert self D. induction rs as [|r rs IH]; intros self D Hnd Hinv s Hin Hname.
  - simpl in *. destruct Hname as [Hname | Hname]; [inversion Hname | now apply Hinv].
  - simpl in Hin.
    apply (IH (fst (deliver_ridge r self)) (r_name r :: D)); try exact Hin.
    + now rewrite deliver_ridge_names.
    + now apply ridge_records.
    + simpl in Hname. destruct Hname as [Hname | Hname].
      * apply elem_of_cons in Hname as [-> | Hname]; [right; left | now left].
      * right. now right.
Qed.

(** A result for a signal of the batch, all others having data, invokes
    the callback. *)
Lemma ridge_fires (r : RidgeResult PyObj) self :
  NoDup (map name (signals self)) ->
  r_name r ∈ map name (signals self) ->
  (forall s, s ∈ signals self -> name s <> r_name r -> has_ridge s = true) ->
  ridge_completed_calls (fst (deliver_ridge r self))
  = S (ridge_completed_calls self).
Proof.
  intros Hnd Hin Hall. rewrite deliver_ridge_run.
  destruct (get_is_Some _ _ Hin) as [sig Hget]. rewrite Hget. cbn zeta.
  rewrite forallb_ready; [reflexivity|].
  intros s Hs. destruct (put_elements _ _ _ _ Hnd Hs) as [-> | [Hold Hne]].
  - apply ridge_update_has.
  - now apply Hall.
Qed.

(** C1 (amended): for a non-empty batch of signals with distinct names and
    no ridge data yet, when one result per signal is delivered, in any
    order, [on_all_ridge_completed] is invoked exactly once, by the last
    of them and not before; the handler keeps no record of having
    completed, so a further result for a signal of the batch invokes it
    again. *)
Theorem ridge_completion_at_last_result self (rs : list (RidgeResult PyObj)) :
  signals self <> [] ->
  NoDup (map name (signals self)) ->
  (forall s, s ∈ signals self -> has_ridge s = false) ->
  map r_name rs ≡ₚ map name (signals self) ->
  ridge_completed_calls (deliver_all deliver_ridge rs self)
  = S (ridge_completed_calls self)
  /\ (forall rs1 rs2,
        rs = rs1 ++ rs2 -> rs2 <> [] ->
        ridge_completed_calls (deliver_all deliver_ridge rs1 self)
        = ridge_completed_calls self)
  /\ (forall r : RidgeResult PyObj,
        r_name r ∈ map name (signals self) ->
        ridge_completed_calls (deliver_all deliver_ridge (rs ++ [r]) self)
        = S (S (ridge_completed_calls self))).
Proof.
  intros Hne Hnd Hfresh Hperm.
  assert (Hnd_rs : NoDup (map r_name rs)) by now rewrite Hperm.
  assert (Hbefore : forall rs1 rs2,
             rs = rs1 ++ rs2 -> rs2 <> [] ->
             ridge_completed_calls (deliver_all deliver_ridge rs1 self)
             = ridge_completed_calls self).
  { intros rs1 [|r rs2] -> Hrs2; [contradiction|].
    rewrite map_app in Hnd_rs, Hperm. simpl in Hnd_rs, Hperm.
    assert (Hr : r_name r ∈ map name (signals self)).
    { rewrite <- Hperm. apply elem_of_app. right. left. }
    apply list_elem_of_fmap in Hr as (s & Hname & Hs).
    apply ridge_never_fires with s; [exact Hs | now apply Hfresh|].
    rewrite <- Hname. apply NoDup_app in Hnd_rs as (_ & Hdisj & _).
    intros Hin. apply (Hdisj _ Hin). left. }
  assert (Hdone : forall s, s ∈ signals (deliver_all deliver_ridge rs self) ->
                            has_ridge s = true).
  { intros s Hs.
    apply (deliver_all_ridge_records rs self [] Hnd); [|exact Hs|].
    - intros ? _ Hnil. inversion Hnil.
    - left. rewrite Hperm, <- (deliver_all_ridge_names rs self).
      apply list_elem_of_fmap. now exists s. }
  assert (Hlast : ridge_completed_calls (deliver_all deliver_ridge rs self)
                  = S (ridge_completed_calls self)).
  { destruct rs as [|r0 rs0] using rev_ind.
    - simpl in Hperm. symmetry in Hperm. apply Permutation_nil_r in Hperm.
      destruct (signals self); [contradiction | discriminate].
    - clear IHrs0. rewrite deliver_all_app. simpl.
      rewrite <- (Hbefore rs0 [r0] eq_refl) by discriminate.
      apply ridge_fires.
      + now rewrite deliver_all_ridge_names.
      + rewrite deliver_all_ridge_names, <- Hperm, map_app.
        apply elem_of_app. right. left.
      + intros s Hs Hname.
        apply (deliver_all_ridge_records rs0 self [] Hnd); [|exact Hs|].
        * intros ? _ Hnil. inversion Hnil.
        * left.
          assert (Hin : name s ∈ map r_name (rs0 ++ [r0])).
          { rewrite Hperm, <- (deliver_all_ridge_names rs0 self).
            apply list_elem_of_fmap. now exists s. }
          rewrite map_app in Hin. apply elem_of_app in Hin as [Hin | Hin];
            [exact Hin|].
          apply list_elem_of_singleton in Hin. contradiction. }
  split; [exact Hlast|]. split; [exact Hbefore|].
  intros r Hr. rewrite deliver_all_app. simpl. rewrite <- Hlast.
  apply ridge_fires.
  - now rewrite deliver_all_ridge_names.
  - now rewrite deliver_all_ridge_names.
  - intros s Hs _. now apply Hdone.
Qed.

(** *** Results that match no signal *)

Lemma get_None_iff (n : string) (l : list (TimeSeries PyObj)) :
  get n l = None <-> n ∉ map name l.
Proof.
  split.
  - intros Hget Hin. apply list_elem_of_fmap in Hin as (s & -> & Hs).
    now destruct (get_None _ _ s Hget Hs).
  - intros Hnot. destruct (get n l) as [s|] eqn:Hget; [|reflexivity].
    apply get_Some in Hget as [Hs Hn]. destruct Hnot.
    apply list_elem_of_fmap. now exists s.
Qed.

Lemma ridge_unmatched (r : RidgeResult PyObj) self :
  get (r_name r) (signals self) = None ->
  deliver_ridge r self = (self, inl AttributeError).
Proof. intros Hget. now rewrite deliver_ridge_run, Hget. Qed.

Lemma filter_unmatched (r : FilterResult PyObj) self :
  get (f_name r) (signals self) = None ->
  deliver_filter set_band r self = (self, inl AttributeError).
Proof. intros Hget. now rewrite deliver_filter_run, Hget. Qed.

Lemma ridge_skips_unmatched (names : list string) (rs : list (RidgeResult PyObj)) self :
  map name (signals self) = names ->
  deliver_all deliver_ridge rs self
  = deliver_all deliver_ridge (filter (fun r => r_name r ∈ names) rs) self.
Proof.
  revert self. induction rs as [|r rs IH]; intros self Hnames; [reflexivity|].
  rewrite filter_cons. destruct (decide (r_name r ∈ names)) as [Hin | Hnot].
  - simpl. apply IH. now rewrite deliver_ridge_names.
  - simpl. rewrite ridge_unmatched by (apply get_None_iff; now rewrite Hnames).
    simpl. now apply IH.
Qed.

(** C6 (amended): a result whose name matches no signal is not dropped
    with a warning. The handler looks the signal up, gets [None] and
    raises [AttributeError] before anything is recorded: the presenter is
    left exactly as it was, no callback is invoked and nothing is
    logged. The accounting of the genuine items is therefore unaffected:
    when the deliveries go on after the exception, the presenter ends in
    the state it would have reached without the unmatched results. *)
Theorem unmatched_result_raises self :
  (forall r : RidgeResult PyObj,
      r_name r ∉ map name (signals self) ->
      deliver_ridge r self = (self, inl AttributeError))
  /\ (forall r : FilterResult PyObj,
      f_name r ∉ map name (signals self) ->
      deliver_filter set_band r self = (self, inl AttributeError))
  /\ (forall rs : list (RidgeResult PyObj),
      deliver_all deliver_ridge rs self
      = deliver_all deliver_ridge
          (filter (fun r => r_name r ∈ map name (signals self)) rs) self).
Proof.
  split; [|split].
  - intros r Hnot. apply ridge_unmatched. now apply get_None_iff.
  - intros r Hnot. apply filter_unmatched. now apply get_None_iff.
  - intros rs. now apply ridge_skips_unmatched.
Qed.

End Handlers.

(** A batch of two signals, the results arriving in the reverse order. *)
Lemma ridge_completion_at_last_result_witness :
  ridge_completed_calls
    (deliver_all deliver_ridge
       [Inputs.ridge_result "b" 1; Inputs.ridge_result "a" 1]
       (Inputs.presenter ["a"; "b"])) = 1%nat
  /\ ridge_completed_calls
       (deliver_all deliver_ridge [Inputs.ridge_result "b" 1]
          (Inputs.presenter ["a"; "b"])) = 0%nat.
Proof.
  destruct (ridge_completion_at_last_result
              (Inputs.presenter ["a"; "b"])
              [Inputs.ridge_result "b" 1; Inputs.ridge_result "a" 1])
    as (Hlast & Hbefore & _).
  - discriminate.
  - decide_by_computation.
  - intros s Hs. simpl in Hs.
    apply elem_of_cons in Hs as [-> | Hs]; [reflexivity|].
    apply list_elem_of_singleton in Hs as ->. reflexivity.
  - apply Permutation_swap.
  - split; [exact Hlast|].
    exact (Hbefore [Inputs.ridge_result "b" 1] [Inputs.ridge_result "a" 1]
             eq_refl ltac:(discriminate)).
Defined.

(** One signal and two intervals: the second result arrives after
    completion and the callback runs a second time. *)
Lemma ridge_completion_repeats :
  ridge_completed_calls
    (deliver_all deliver_ridge
       [Inputs.ridge_result "a" 1; Inputs.ridge_result "a" 2]
       (Inputs.presenter ["a"])) = 2%nat.
Proof. reflexivity. Qed.

(** The test is made per signal, not per work item. With one signal and
    two intervals, hence two items, the result of the first interval
    runs the callback while the second item is pending; with two signals
    and two intervals each, the callback runs after two of the four
    results; and the first result of a second batch runs it at once,
    the signals still holding the ridge data of the first batch. *)
Lemma completion_with_item_pending :
  ridge_completed_calls
    (deliver_all deliver_ridge [Inputs.ridge_result "a" 1]
       (Inputs.presenter ["a"])) = 1%nat
  /\ ridge_completed_calls
       (deliver_all deliver_ridge
          [Inputs.ridge_result "a" 1; Inputs.ridge_result "b" 1]
          (Inputs.presenter ["a"; "b"])) = 1%nat
  /\ ridge_completed_calls
       (deliver_all deliver_ridge [Inputs.ridge_result "a" 1]
          (deliver_all deliver_ridge
             [Inputs.ridge_result "a" 1; Inputs.ridge_result "b" 1]
             (Inputs.presenter ["a"; "b"]))) = 2%nat.
Proof. repeat split; reflexivity. Qed.

Lemma no_completion_while_item_pending_witness :
  ridge_completed_calls
    (deliver_all deliver_ridge
       [Inputs.ridge_result "a" 1; Inputs.ridge_result "a" 2]
       (Inputs.presenter ["a"; "b"])) = 0%nat
  /\ filter_completed_calls
       (deliver_all (deliver_filter Inputs.no_such_method)
          [Inputs.filter_result "a"] (Inputs.presenter ["a"; "b"])) = 0%nat.
Proof.
  destruct (no_completion_while_item_pending Inputs.no_such_method
              (Inputs.presenter ["a"; "b"]) (Inputs.sig "b"))
    as [Hridge Hfilter].
  - simpl. right. left.
  - split.
    + apply (Hridge [Inputs.ridge_result "a" 1; Inputs.ridge_result "a" 2]).
      * reflexivity.
      * decide_by_computation.
    + apply (Hfilter [Inputs.filter_result "a"]).
      * reflexivity.
      * decide_by_computation.
Defined.

(** A result named after no signal: the handler raises. *)
Lemma unmatched_result_not_dropped :
  deliver_ridge (Inputs.ridge_result "zz" 1) (Inputs.presenter ["a"; "b"])
  = (Inputs.presenter ["a"; "b"], inl AttributeError).
Proof. reflexivity. Qed.

Lemma unmatched_result_raises_witness :
  deliver_ridge (Inputs.ridge_result "zz" 1) (Inputs.presenter ["a"; "b"])
  = (Inputs.presenter ["a"; "b"], inl AttributeError).
Proof.
  apply (proj1 (unmatched_result_raises Inputs.no_such_method
                  (Inputs.presenter ["a"; "b"]))).
  decide_by_computation.
Defined.

End Collector.


(** ** The compute functions *)

Module ComputeFunctions.
Import Signals Workers.

Section Steps.

Context {PyObj S : Type}.

Lemma bind_call {A B} (r : exn + A) (k : A -> Py.M S B) (s : S) :
  Py.bind (Py.call r) k s
  = match r with inl e => (s, inl e) | inr a => k a s end.
Proof. unfold Py.bind, Py.call. now destruct r. Qed.

Lemma bind_iterate {B} (t : option (PyObj * PyObj))
    (k : list PyObj -> Py.M S B) (s : S) :
  Py.bind (iterate PyObj t) k s
  = match t with
    | Some (a, b) => k [a; b] s
    | None => (s, inl TypeError)
    end.
Proof. unfold Py.bind, iterate. now destruct t as [[a b]|]. Qed.

End Steps.

Section Compute.

Context {PyObj : Type}.
Variable initialize : exn + PyObj.
Variable matlab_double_of : PyObj -> PyObj.
Variable full_bayesian : PyObj -> list (PyVal PyObj) -> exn + list PyObj.
Variable loop_butter : PyObj -> list PyObj -> PyObj -> exn + PyObj.
Variable angle_hilbert : PyObj -> exn + PyObj.
Variable bayes_main : PyObj -> PyObj -> PyVal PyObj -> PyObj -> PyVal PyObj
                      -> PyVal PyObj -> PyVal PyObj -> exn + (PyObj * PyObj).
Variable couplings : PyObj -> PyVal PyObj
                     -> exn + (PyObj * PyObj * PyObj * PyObj * PyObj * PyObj).
Variable surrogate_levels :
  PyObj -> PyObj -> ParamSet PyObj -> PyObj -> exn + (PyObj * PyObj).
Variable tolist matlab_double complex_list real_parts imag_parts : PyObj -> PyObj.
Variable biphase_wav_new_calculate :
  PyObj -> PyObj -> PyObj -> PyObj -> list PyObj -> gmap string PyObj
  -> exn + (PyObj * PyObj).
Variable matlab_to_numpy : PyObj -> PyObj.
Variable reshape : PyObj -> PyObj -> PyObj.
Variable bispectrum_values : PyObj -> PyObj -> PyObj -> exn + list PyObj.

Abbreviation moda :=
  (_moda_dynamic_bayesian_inference initialize matlab_double_of full_bayesian).
Abbreviation dbi :=
  (_dynamic_bayesian_inference loop_butter angle_hilbert bayes_main couplings
     surrogate_levels).
Abbreviation biphase :=
  (_biphase tolist matlab_double complex_list real_parts imag_parts
     biphase_wav_new_calculate matlab_to_numpy reshape).
Abbreviation bispectrum := (_bispectrum_analysis bispectrum_values).

Lemma moda_writes signal1 signal2 params queue :
  writes_one_or_raises (name signal1) queue (moda signal1 signal2 params queue).
Proof.
  unfold _moda_dynamic_bayesian_inference.
  rewrite bind_call. destruct initialize as [e|package]; [reflexivity|].
  rewrite bind_iterate. destruct (freq_range1 params) as [[a b]|]; [|reflexivity].
  rewrite bind_iterate. destruct (freq_range2 params) as [[c d]|]; [|reflexivity].
  rewrite bind_call. destruct (full_bayesian _ _) as [e|result]; [reflexivity|].
  simpl. eexists. split; reflexivity.
Qed.

Lemma dbi_writes signal1 signal2 params queue :
  writes_one_or_raises (name signal1) queue (dbi signal1 signal2 params queue).
Proof.
  unfold _dynamic_bayesian_inference. cbn zeta.
  rewrite bind_iterate. destruct (freq_range1 params) as [[a b]|]; [|reflexivity].
  rewrite bind_call. destruct (loop_butter _ _ _) as [e|bands1]; [reflexivity|].
  rewrite bind_call. destruct (angle_hilbert bands1) as [e|phi1]; [reflexivity|].
  rewrite bind_iterate. destruct (freq_range2 params) as [[c d]|]; [|reflexivity].
  rewrite bind_call. destruct (loop_butter _ _ _) as [e|bands2]; [reflexivity|].
  rewrite bind_call. destruct (angle_hilbert bands2) as [e|phi2]; [reflexivity|].
  rewrite bind_call. destruct (bayes_main _ _ _ _ _ _ _) as [e|r]; [reflexivity|].
  rewrite bind_call. destruct (couplings _ _) as [e|c0]; [reflexivity|].
  rewrite bind_call. destruct (surrogate_levels _ _ _ _) as [e|s0]; [reflexivity|].
  simpl. eexists. split; reflexivity.
Qed.

(** The name comes first in the tuple that [_biphase] returns. *)
Lemma biphase_returns_key sig1 sig2 fs f0 fr opt opt' t :
  biphase sig1 sig2 fs f0 fr opt = (opt', inr t) ->
  key_of t = Some (EStr (name sig1)).
Proof.
  unfold _biphase, Py.bind, dict_get, dict_set, dict_del, Py.modify, Py.get,
    Py.call, Py.ret.
  repeat match goal with
         | |- context [match ?x with _ => _ end] =>
             lazymatch x with
             | context [match _ with _ => _ end] => fail
             | _ => destruct x eqn:?
             end
         end; intros [= <- <-] || discriminate; reflexivity.
Qed.

Lemma process_writes {S} (f : Py.M S (ResultTuple PyObj)) key queue s :
  (forall s' t, f s = (s', inr t) -> key_of t = Some (EStr key)) ->
  writes_one_or_raises key queue (channel_after (process f (queue, s))).
Proof.
  intros Hkey. unfold channel_after, process. simpl.
  destruct (f s) as [s' [e|t]] eqn:Hf; simpl; [reflexivity|].
  exists t. split; [reflexivity | now apply (Hkey s')].
Qed.

(** C7 (amended): every invocation of a compute function that runs to
    completion writes exactly one tuple to the result channel, and the
    first element of that tuple is the name of the first input signal;
    an invocation that raises writes nothing. *)
Theorem compute_functions_write_one_keyed_tuple :
  (forall signal1 signal2 params queue,
      writes_one_or_raises (name signal1) queue
        (moda signal1 signal2 params queue))
  /\ (forall signal1 signal2 params queue,
      writes_one_or_raises (name signal1) queue
        (dbi signal1 signal2 params queue))
  /\ (forall sig1 sig2 fs f0 fr opt queue,
      writes_one_or_raises (name sig1) queue
        (channel_after (process (biphase sig1 sig2 fs f0 fr) (queue, opt))))
  /\ (forall sig1 sig2 params queue,
      writes_one_or_raises (name sig1) queue
        (channel_after (process (bispectrum sig1 sig2 params) (queue, tt)))).
Proof.
  split; [|split; [|split]].
  - intros. apply moda_writes.
  - intros. apply dbi_writes.
  - intros. apply process_writes. intros opt' t. apply biphase_returns_key.
  - intros. apply process_writes. intros [] t.
    unfold _bispectrum_analysis. rewrite bind_call.
    destruct (bispectrum_values _ _ _) as [e|values]; [discriminate|].
    unfold Py.ret. now intros [= <-].
Qed.

(** With both frequency ranges given and the engine returning, the
    packaged Bayesian inference does write its tuple. *)
Lemma moda_returns signal1 signal2 params queue package a b c d result :
  initialize = inr package ->
  freq_range1 params = Some (a, b) ->
  freq_range2 params = Some (c, d) ->
  full_bayesian package
    [Some (matlab_double_of (signal signal1));
     Some (matlab_double_of (signal signal2));
     Some a; Some b; Some c; Some d; Some (frequency signal1);
     window params; propagation_const params; overlap params;
     order params; surr_count params; confidence_level params]
  = inr result ->
  moda signal1 signal2 params queue
  = (queue ++ [EStr (name signal1) :: map EObj result], inr tt).
Proof.
  intros Hinit H1 H2 Hrun. unfold _moda_dynamic_bayesian_inference.
  rewrite bind_call, Hinit, bind_iterate, H1, bind_iterate, H2, bind_call.
  simpl. now rewrite Hrun.
Qed.

(** *** The dict handed to [_biphase] *)

Lemma bind_dict_get {B} k v (kont : PyObj -> Py.M (gmap string PyObj) B) d :
  d !! k = Some v -> Py.bind (dict_get PyObj k) kont d = kont v d.
Proof. intros H. unfold Py.bind, dict_get. now rewrite H. Qed.

Lemma bind_dict_set {B} k v (kont : unit -> Py.M (gmap string PyObj) B) d :
  Py.bind (dict_set PyObj k v) kont d = kont tt (<[k := v]> d).
Proof. reflexivity. Qed.

Lemma bind_dict_del {B} k v (kont : unit -> Py.M (gmap string PyObj) B) d :
  d !! k = Some v -> Py.bind (dict_del PyObj k) kont d = kont tt (delete k d).
Proof. intros H. unfold Py.bind, dict_del. now rewrite H. Qed.

Lemma marshalled_frame opt padlr1 padlr2 twf1 twf2 k :
  k ∉ marshalled_keys ->
  marshalled tolist matlab_double complex_list real_parts imag_parts
    opt padlr1 padlr2 twf1 twf2 !! k = opt !! k.
Proof.
  unfold marshalled_keys, marshalled. intros Hk.
  repeat (apply not_elem_of_cons in Hk as [? Hk]).
  rewrite !lookup_insert_ne, !lookup_delete_ne, !lookup_insert_ne by congruence.
  reflexivity.
Qed.

(** C8 (amended): [_biphase] does not leave the dict [opt] it receives as
    it was. When [opt] holds the four entries the function reads, the
    dict it leaves behind, whether the engine calls then return or raise,
    has [PadLR1] and [PadLR2] rebound to their conversions, [twf1] and
    [twf2] removed, and [twf1r], [twf2r], [twf1i], [twf2i] added; every
    other key keeps its value. *)
Theorem biphase_rewrites_opt sig1 sig2 fs f0 fr opt padlr1 padlr2 twf1 twf2 :
  opt !! "PadLR1" = Some padlr1 ->
  opt !! "PadLR2" = Some padlr2 ->
  opt !! "twf1" = Some twf1 ->
  opt !! "twf2" = Some twf2 ->
  let opt' := fst (biphase sig1 sig2 fs f0 fr opt) in
  opt' = marshalled tolist matlab_double complex_list real_parts imag_parts
           opt padlr1 padlr2 twf1 twf2
  /\ opt' !! "PadLR1" = Some (matlab_double (tolist padlr1))
  /\ opt' !! "PadLR2" = Some (matlab_double (tolist padlr2))
  /\ opt' !! "twf1" = None
  /\ opt' !! "twf2" = None
  /\ opt' !! "twf1r" = Some (matlab_double (real_parts (complex_list twf1)))
  /\ opt' !! "twf2r" = Some (matlab_double (real_parts (complex_list twf2)))
  /\ opt' !! "twf1i" = Some (matlab_double (imag_parts (complex_list twf1)))
  /\ opt' !! "twf2i" = Some (matlab_double (imag_parts (complex_list twf2)))
  /\ (forall k, k ∉ marshalled_keys -> opt' !! k = opt !! k).
Proof.
  intros H1 H2 H3 H4 opt'.
  assert (Hrun : opt' = marshalled tolist matlab_double complex_list real_parts
                          imag_parts opt padlr1 padlr2 twf1 twf2).
  { subst opt'. unfold _biphase. cbn zeta.
    rewrite (bind_dict_get _ padlr1) by exact H1. rewrite bind_dict_set.
    rewrite (bind_dict_get _ padlr2) by (now rewrite lookup_insert_ne).
    rewrite bind_dict_set.
    rewrite (bind_dict_get _ twf1) by (now rewrite !lookup_insert_ne).
    rewrite (bind_dict_get _ twf2) by (now rewrite !lookup_insert_ne).
    rewrite (bind_dict_del _ twf1) by (now rewrite !lookup_insert_ne).
    rewrite (bind_dict_del _ twf2)
      by (now rewrite lookup_delete_ne, !lookup_insert_ne).
    rewrite !bind_dict_set. fold (marshalled tolist matlab_double complex_list
      real_parts imag_parts opt padlr1 padlr2 twf1 twf2).
    unfold Py.bind at 1. unfold Py.get at 1.
    repeat (rewrite bind_call;
            destruct (biphase_wav_new_calculate _ _ _ _ _ _); [reflexivity|]).
    reflexivity. }
  split; [exact Hrun|]. rewrite Hrun.
  repeat split; try (unfold marshalled; now simplify_map_eq).
  intros k Hk. now apply marshalled_frame.
Qed.

End Compute.

(** The Bayesian inference of PyMODA on a complete parameter set, the
    engine returning: one tuple, the name first. *)
Lemma dbi_complete_run :
  _dynamic_bayesian_inference Inputs.engine_loop_butter
    Inputs.engine_angle_hilbert Inputs.engine_bayes_main
    Inputs.engine_couplings Inputs.engine_surrogate_levels
    (Inputs.sig "a") (Inputs.sig "b") Inputs.params_full []
  = ([[EStr "a"; EObj 30; EObj 0; EObj 0; EObj 40; EObj 41; EObj 42; EObj 43;
       EObj 44; EObj 45; EObj 50; EObj 51]], inr tt).
Proof. reflexivity. Qed.

(** The first frequency range left empty: unpacking [None] raises and
    nothing reaches the channel. *)
Lemma dbi_writes_nothing_without_range :
  _dynamic_bayesian_inference Inputs.engine_loop_butter
    Inputs.engine_angle_hilbert Inputs.engine_bayes_main
    Inputs.engine_couplings Inputs.engine_surrogate_levels
    (Inputs.sig "a") (Inputs.sig "b") Inputs.params_no_range []
  = ([], inl TypeError).
Proof. reflexivity. Qed.

Lemma moda_writes_nothing_without_range :
  _moda_dynamic_bayesian_inference Inputs.engine_initialize (fun x => x)
    Inputs.engine_full_bayesian
    (Inputs.sig "a") (Inputs.sig "b") Inputs.params_no_range []
  = ([], inl TypeError).
Proof. reflexivity. Qed.

(** [_biphase] on the dict of bispectrum analysis: [twf1] is gone
    afterwards. *)
Lemma biphase_removes_twf1 :
  (fst (_biphase (fun x => x) (fun x => x) (fun x => x) (fun x => x)
          (fun x => x) Inputs.engine_biphase (fun x => x) (fun _ x => x)
          (Inputs.sig "a") (Inputs.sig "b") 10 1 [5; 6] Inputs.opt0)
     !! "twf1",
   Inputs.opt0 !! "twf1")
  = (None, Some 3).
Proof. vm_compute. reflexivity. Qed.

Lemma biphase_rewrites_opt_witness :
  fst (_biphase (fun x => x) (fun x => x) (fun x => x) (fun x => x)
         (fun x => x) Inputs.engine_biphase (fun x => x) (fun _ x => x)
         (Inputs.sig "a") (Inputs.sig "b") 10 1 [5; 6] Inputs.opt0)
    !! "twf1r" = Some 3
  /\ fst (_biphase (fun x => x) (fun x => x) (fun x => x) (fun x => x)
            (fun x => x) Inputs.engine_biphase (fun x => x) (fun _ x => x)
            (Inputs.sig "a") (Inputs.sig "b") 10 1 [5; 6] Inputs.opt0)
       !! "nv" = Some 5.
Proof.
  destruct (biphase_rewrites_opt (fun x => x) (fun x => x) (fun x => x)
              (fun x => x) (fun x => x) Inputs.engine_biphase (fun x => x)
              (fun _ x => x) (Inputs.sig "a") (Inputs.sig "b") 10 1 [5; 6]
              Inputs.opt0 1 2 3 4)
    as (_ & _ & _ & _ & _ & Hr & _ & _ & _ & Hframe).
  - vm_compute. reflexivity.
  - vm_compute. reflexivity.
  - vm_compute. reflexivity.
  - vm_compute. reflexivity.
  - split; [exact Hr|].
    rewrite (Hframe "nv") by decide_by_computation.
    vm_compute. reflexivity.
Defined.

End ComputeFunctions.

(** ** The dispatcher *)

Module Dispatch.
Import Dispatcher.

Lemma spawn_all_running starts next_pid work_items :
  length (filter (fun h => running h = true) (spawn_all starts next_pid work_items))
  = length (filter (fun w => starts w = true) work_items).
Proof.
  revert next_pid. induction work_items as [|w rest IH]; intros next_pid;
    [reflexivity|].
  simpl. rewrite (filter_cons (fun w => starts w = true)).
  destruct (starts w) eqn:Hw.
  - rewrite filter_cons. simpl.
    destruct (decide (true = true)); [|contradiction].
    simpl. now rewrite IH.
  - destruct (decide (false = true)); [discriminate|]. apply IH.
Qed.

(** C9 (amended): the dispatcher enforces no cap. It starts one worker
    process per work item at once, so the number of workers running
    together right after a dispatch is the number of items whose process
    started, whatever the CPU parallelism of the host; a batch with more
    items than CPUs runs more workers than CPUs. *)
Theorem dispatch_runs_one_worker_per_item starts next_pid work_items :
  running_workers (dispatch starts next_pid work_items)
  = length (filter (fun w => starts w = true) work_items)
  /\ (forall cpus,
        within_cap cpus (dispatch starts next_pid work_items)
        = (length (filter (fun w => starts w = true) work_items) <=? cpus)%nat).
Proof.
  assert (H : running_workers (dispatch starts next_pid work_items)
              = length (filter (fun w => starts w = true) work_items))
    by apply spawn_all_running.
  split; [exact H|]. intros cpus. unfold within_cap. now rewrite H.
Qed.

(** Three items on a host with two CPUs: three workers run together. *)
Lemma dispatch_exceeds_cpu_count :
  within_cap 2 (dispatch Inputs.always_starts 1000 Inputs.three_items) = false.
Proof. reflexivity. Qed.

End Dispatch.


(** ** The plot widget *)

Module Plot.
Import MatplotlibWidget.

Section Crosshairs.

Context {Coord Rect : Type}.

Implicit Types (self : Widget Coord Rect) (l : Line2D Coord).

Abbreviation pop_and_remove :=
  (PyE.bind (pop_first Coord Rect)
     (fun item => PyE.try_pass (artist_remove Coord Rect (line_id Coord item)))).

Lemma filter_absent (id : nat) (A : list nat) :
  id ∉ A -> filter (fun a => a <> id) A = A.
Proof.
  induction A as [|a A IH]; intros Hid; [reflexivity|].
  apply not_elem_of_cons in Hid as [Hne Hid].
  rewrite filter_cons_True by congruence. now rewrite IH.
Qed.

(** One turn of the loop of [remove_crosshairs]. *)
Lemma pop_and_remove_run self l rest :
  temp_lines _ _ self = l :: rest ->
  pop_and_remove self
  = (with_axes_artists _ _
       (filter (fun a => a <> line_id _ l) (axes_artists _ _ self))
       (with_temp_lines _ _ rest self), inr tt).
Proof.
  intros Hl. unfold PyE.bind, pop_first. rewrite Hl.
  unfold PyE.try_pass, artist_remove, PyE.bind, PyE.get. cbn [axes_artists with_temp_lines].
  case_bool_decide as Hin; [reflexivity|].
  unfold PyE.raise. rewrite filter_absent by exact Hin.
  destruct self; reflexivity.
Qed.

Lemma pop_and_remove_empty self :
  temp_lines _ _ self = [] -> pop_and_remove self = (self, inl IndexError).
Proof. intros Hl. unfold PyE.bind, pop_first. now rewrite Hl. Qed.

Lemma filter_always (P : nat -> Prop) `{!forall a, Decision (P a)} (A : list nat) :
  (forall a, a ∈ A -> P a) -> filter P A = A.
Proof.
  induction A as [|a A IH]; intros HP; [reflexivity|].
  rewrite filter_cons_True by (apply HP; left).
  rewrite IH; [reflexivity|]. intros b Hb. apply HP. now right.
Qed.

Lemma lines_dropped_0 self : lines_dropped _ _ 0 self = self.
Proof.
  unfold lines_dropped. simpl. rewrite drop_0.
  rewrite filter_always by (intros a _ Hin; inversion Hin).
  destruct self; reflexivity.
Qed.

Lemma lines_dropped_S n self l rest :
  temp_lines _ _ self = l :: rest ->
  lines_dropped _ _ n
    (with_axes_artists _ _
       (filter (fun a => a <> line_id _ l) (axes_artists _ _ self))
       (with_temp_lines _ _ rest self))
  = lines_dropped _ _ (S n) self.
Proof.
  intros Hl. unfold lines_dropped, with_axes_artists, with_temp_lines.
  cbn. rewrite Hl. cbn. f_equal.
  rewrite list_filter_filter.
  apply list_filter_iff. intros a. rewrite not_elem_of_cons. tauto.
Qed.

(** The loop, for [n] turns: it ends normally when there are enough
    lines, and with [IndexError] when the lines run out. *)
Lemma pop_loop_enough n self :
  (n <= length (temp_lines _ _ self))%nat ->
  PyE.repeat_n n pop_and_remove self = (lines_dropped _ _ n self, inr tt).
Proof.
  revert self. induction n as [|n IH]; intros self Hn.
  - simpl. now rewrite lines_dropped_0.
  - destruct (temp_lines _ _ self) as [|l rest] eqn:Hl; [simpl in Hn; lia|].
    cbn [PyE.repeat_n]. unfold PyE.bind at 1.
    rewrite (pop_and_remove_run self l rest Hl).
    rewrite IH by (cbn; simpl in Hn; lia).
    now rewrite (lines_dropped_S n self l rest Hl).
Qed.

Lemma pop_loop_short n self :
  (length (temp_lines _ _ self) < n)%nat ->
  PyE.repeat_n n pop_and_remove self
  = (lines_dropped _ _ (length (temp_lines _ _ self)) self, inl IndexError).
Proof.
  revert self. induction n as [|n IH]; intros self Hn; [lia|].
  destruct (temp_lines _ _ self) as [|l rest] eqn:Hl.
  - cbn [PyE.repeat_n]. unfold PyE.bind at 1.
    rewrite (pop_and_remove_empty self Hl). simpl. now rewrite lines_dropped_0.
  - cbn [PyE.repeat_n]. unfold PyE.bind at 1.
    rewrite (pop_and_remove_run self l rest Hl).
    rewrite IH by (cbn; simpl in Hn; lia). cbn [temp_lines with_axes_artists with_temp_lines].
    now rewrite (lines_dropped_S (length rest) self l rest Hl).
Qed.

Lemma remove_crosshairs_loop all max_count self :
  remove_crosshairs _ _ all max_count self
  = PyE.repeat_n
      (Z.to_nat
         (if all then Z.of_nat (length (temp_lines _ _ self))
          else Z.max 0 (crosshair_count _ _ self
                        - or_default max_count (max_crosshairs _ _ self)) * 2))
      pop_and_remove self.
Proof. reflexivity. Qed.

Lemma lines_dropped_artists n self a :
  a ∈ axes_artists _ _ (lines_dropped _ _ n self)
  <-> a ∈ axes_artists _ _ self
      /\ a ∉ map (line_id _) (take n (temp_lines _ _ self)).
Proof.
  unfold lines_dropped. cbn. rewrite list_elem_of_filter. tauto.
Qed.

(** X3: [remove_crosshairs()] with [all=True] never raises, whatever
    [max_count] is and even when some lines were already taken off the
    plot: it empties [temp_lines], takes every one of these lines off
    the axes, leaves the other artists where they are and calls no
    listener. *)
Theorem remove_crosshairs_all_clears self max_count :
  snd (remove_crosshairs _ _ true max_count self) = inr tt
  /\ temp_lines _ _ (fst (remove_crosshairs _ _ true max_count self)) = []
  /\ (forall a,
        a ∈ axes_artists _ _ (fst (remove_crosshairs _ _ true max_count self))
        <-> a ∈ axes_artists _ _ self
            /\ a ∉ map (line_id _) (temp_lines _ _ self))
  /\ calls _ _ (fst (remove_crosshairs _ _ true max_count self))
     = calls _ _ self.
Proof.
  rewrite remove_crosshairs_loop, Nat2Z.id.
  rewrite pop_loop_enough by lia. cbn [fst snd].
  split; [reflexivity|]. split; [apply drop_all|]. split; [|reflexivity].
  intros a. rewrite lines_dropped_artists. now rewrite firstn_all.
Qed.

(** X4: [remove_crosshairs(all=False, max_count)] with a limit that is
    not negative never raises and removes the oldest lines only: the
    lines that stay are the most recent ones, the lines that go are off
    the axes, and the number of crosshairs left is the smaller of the
    number before and the limit. The limit is [max_count], or
    [max_crosshairs] when [max_count] is [None] or 0. *)
Theorem remove_crosshairs_keeps_newest self max_count :
  0 <= or_default max_count (max_crosshairs _ _ self) ->
  snd (remove_crosshairs _ _ false max_count self) = inr tt
  /\ (exists oldest,
        temp_lines _ _ self
        = oldest ++ temp_lines _ _ (fst (remove_crosshairs _ _ false max_count self))
        /\ forall a,
            a ∈ axes_artists _ _ (fst (remove_crosshairs _ _ false max_count self))
            <-> a ∈ axes_artists _ _ self /\ a ∉ map (line_id _) oldest)
  /\ crosshair_count _ _ (fst (remove_crosshairs _ _ false max_count self))
     = Z.min (crosshair_count _ _ self)
         (or_default max_count (max_crosshairs _ _ self)).
Proof.
  intros Hlimit. rewrite remove_crosshairs_loop.
  set (m := or_default max_count (max_crosshairs _ _ self)) in *.
  set (k := Z.to_nat (Z.max 0 (crosshair_count _ _ self - m) * 2)).
  assert (Hk : (k <= length (temp_lines _ _ self))%nat).
  { subst k. unfold crosshair_count. Z.to_euclidean_division_equations. lia. }
  rewrite pop_loop_enough by exact Hk. cbn [fst snd].
  split; [reflexivity|]. split.
  - exists (take k (temp_lines _ _ self)). split.
    + unfold lines_dropped. cbn. now rewrite take_drop.
    + intros a. apply lines_dropped_artists.
  - unfold crosshair_count, lines_dropped. cbn. rewrite length_drop.
    subst k. unfold crosshair_count. Z.to_euclidean_division_equations. lia.
Qed.

(** X5: with a negative limit, [remove_crosshairs(all=False, max_count)]
    asks for more lines than there are: it removes every line and then
    raises [IndexError] on the empty list. *)
Theorem remove_crosshairs_negative_limit self max_count :
  or_default max_count (max_crosshairs _ _ self) < 0 ->
  snd (remove_crosshairs _ _ false max_count self) = inl IndexError
  /\ temp_lines _ _ (fst (remove_crosshairs _ _ false max_count self)) = []
  /\ (forall a,
        a ∈ axes_artists _ _ (fst (remove_crosshairs _ _ false max_count self))
        <-> a ∈ axes_artists _ _ self
            /\ a ∉ map (line_id _) (temp_lines _ _ self)).
Proof.
  intros Hlimit. rewrite remove_crosshairs_loop.
  set (m := or_default max_count (max_crosshairs _ _ self)) in *.
  rewrite pop_loop_short.
  - cbn [fst snd]. split; [reflexivity|]. split; [apply drop_all|].
    intros a. rewrite lines_dropped_artists. now rewrite firstn_all.
  - unfold crosshair_count. Z.to_euclidean_division_equations. lia.
Qed.

(** *** Drawing crosshairs *)

Lemma notify_run {A} (c : A -> Call Coord Rect) (xs : list A) self :
  PyE.for_each xs (fun f => call _ _ (c f)) self
  = (with_calls _ _ (calls _ _ self ++ map c xs) self, inr tt).
Proof.
  revert self. induction xs as [|x xs IH]; intros self.
  - simpl. rewrite app_nil_r. destruct self; reflexivity.
  - cbn [PyE.for_each]. unfold PyE.bind at 1. unfold call at 1, PyE.modify.
    rewrite IH. destruct self; cbn. now rewrite <- app_assoc.
Qed.

Lemma draw_crosshair_run x y self :
  draw_crosshair _ _ x y self
  = match remove_crosshairs _ _ false (Some (max_crosshairs _ _ self - 1))
            (crosshair_plotted _ _ x y self) with
    | (s, inl e) => (s, inl e)
    | (s, inr _) =>
        PyE.for_each (crosshair_listeners _ _ s)
          (fun f => call _ _ (CrosshairListener _ _ f x y)) s
    end.
Proof. reflexivity. Qed.

Lemma crosshair_plotted_count x y self :
  crosshair_count _ _ (crosshair_plotted _ _ x y self)
  = crosshair_count _ _ self + 1.
Proof.
  unfold crosshair_count, crosshair_plotted. cbn. rewrite !length_app. simpl.
  Z.to_euclidean_division_equations. lia.
Qed.

Lemma crosshair_limit_positive self :
  1 <= max_crosshairs _ _ self -> 1 <= crosshair_limit _ _ self.
Proof.
  unfold crosshair_limit, or_default. intros HM.
  destruct (Z.eqb_spec (max_crosshairs _ _ self - 1) 0); lia.
Qed.

(** X6: with [max_crosshairs] at least 1, [draw_crosshair(x, y)] never
    raises: the two new lines end up last in [temp_lines], older
    crosshairs are removed so that the number of crosshairs is the
    smaller of the number before plus one and the limit, and every
    crosshair listener is called once with [(x, y)], in the order of
    registration, after the removal. The limit is [max_crosshairs - 1],
    except that it is 1 when [max_crosshairs] is 1. *)
Theorem draw_crosshair_within_limit x y self :
  1 <= max_crosshairs _ _ self ->
  snd (draw_crosshair _ _ x y self) = inr tt
  /\ (exists kept,
        temp_lines _ _ (fst (draw_crosshair _ _ x y self))
        = kept
          ++ [{| line_id := fresh_artist _ _ self; horizontal := true;
                 position := y |};
              {| line_id := S (fresh_artist _ _ self); horizontal := false;
                 position := x |}])
  /\ crosshair_count _ _ (fst (draw_crosshair _ _ x y self))
     = Z.min (crosshair_count _ _ self + 1) (crosshair_limit _ _ self)
  /\ calls _ _ (fst (draw_crosshair _ _ x y self))
     = calls _ _ self
       ++ map (fun f => CrosshairListener _ _ f x y) (crosshair_listeners _ _ self)
  /\ max_crosshairs _ _ (fst (draw_crosshair _ _ x y self))
     = max_crosshairs _ _ self.
Proof.
  intros HM. pose proof (crosshair_limit_positive self HM) as Hlimit.
  rewrite draw_crosshair_run, remove_crosshairs_loop.
  change (or_default (Some (max_crosshairs _ _ self - 1))
            (max_crosshairs _ _ (crosshair_plotted _ _ x y self)))
    with (crosshair_limit _ _ self).
  rewrite crosshair_plotted_count.
  set (m := crosshair_limit _ _ self) in *. clearbody m.
  set (k := Z.to_nat (Z.max 0 (crosshair_count _ _ self + 1 - m) * 2)).
  assert (Hk : (k <= length (temp_lines _ _ self))%nat).
  { subst k. unfold crosshair_count. Z.to_euclidean_division_equations. lia. }
  rewrite pop_loop_enough
    by (unfold crosshair_plotted; cbn; rewrite !length_app; simpl; lia).
  rewrite notify_run. cbn [fst snd].
  split; [reflexivity|]. split; [|split; [|split; reflexivity]].
  - exists (drop k (temp_lines _ _ self)).
    unfold lines_dropped, crosshair_plotted. cbn.
    rewrite <- app_assoc. rewrite drop_app_le by exact Hk. reflexivity.
  - unfold crosshair_count at 1. unfold lines_dropped, crosshair_plotted. cbn.
    rewrite length_drop, !length_app. simpl.
    subst k. unfold crosshair_count.
    zify. Z.to_euclidean_division_equations. lia.
Qed.

Lemma draw_crosshair_state x y self :
  1 <= max_crosshairs _ _ self ->
  exists k,
    draw_crosshair _ _ x y self
    = (with_calls _ _
         (calls _ _ self
          ++ map (fun f => CrosshairListener _ _ f x y)
               (crosshair_listeners _ _ self))
         (lines_dropped _ _ k (crosshair_plotted _ _ x y self)), inr tt).
Proof.
  intros HM. pose proof (crosshair_limit_positive self HM) as Hlimit.
  rewrite draw_crosshair_run, remove_crosshairs_loop.
  change (or_default (Some (max_crosshairs _ _ self - 1))
            (max_crosshairs _ _ (crosshair_plotted _ _ x y self)))
    with (crosshair_limit _ _ self).
  rewrite crosshair_plotted_count.
  set (m := crosshair_limit _ _ self) in *. clearbody m.
  set (k := Z.to_nat (Z.max 0 (crosshair_count _ _ self + 1 - m) * 2)).
  exists k.
  rewrite pop_loop_enough.
  - now rewrite notify_run.
  - subst k. unfold crosshair_plotted, crosshair_count. cbn.
    rewrite !length_app. simpl.
    zify. Z.to_euclidean_division_equations. lia.
Qed.

(** X7: with [max_crosshairs] 0 or negative, [draw_crosshair(x, y)]
    draws the two lines, removes every temporary line again, the new
    ones included, and raises [IndexError]; no crosshair listener is
    called. *)
Theorem draw_crosshair_without_limit x y self :
  max_crosshairs _ _ self <= 0 ->
  snd (draw_crosshair _ _ x y self) = inl IndexError
  /\ temp_lines _ _ (fst (draw_crosshair _ _ x y self)) = []
  /\ calls _ _ (fst (draw_crosshair _ _ x y self)) = calls _ _ self.
Proof.
  intros HM. rewrite draw_crosshair_run.
  destruct (remove_crosshairs_negative_limit (crosshair_plotted _ _ x y self)
              (Some (max_crosshairs _ _ self - 1))) as (Hr & Hl & _).
  { unfold or_default. cbn.
    destruct (Z.eqb_spec (max_crosshairs _ _ self - 1) 0); lia. }
  destruct (remove_crosshairs _ _ false _ _) as [s r] eqn:Hrun.
  cbn [fst snd] in *. subst r. cbn [fst snd].
  split; [reflexivity|]. split; [exact Hl|].
  rewrite remove_crosshairs_loop in Hrun.
  rewrite pop_loop_short in Hrun.
  - injection Hrun as <-. reflexivity.
  - unfold crosshair_count, or_default, crosshair_plotted. cbn.
    rewrite !length_app. simpl.
    destruct (Z.eqb_spec (max_crosshairs _ _ self - 1) 0);
      Z.to_euclidean_division_equations; lia.
Qed.

Lemma draw_crosshairs_within_limit points self :
  1 <= max_crosshairs _ _ self ->
  snd (draw_crosshairs _ _ points self) = inr tt
  /\ max_crosshairs _ _ (fst (draw_crosshairs _ _ points self))
     = max_crosshairs _ _ self
  /\ (points <> [] ->
      crosshair_count _ _ (fst (draw_crosshairs _ _ points self))
      <= crosshair_limit _ _ self).
Proof.
  revert self. induction points as [|p points IH]; intros self HM.
  - simpl. split; [reflexivity|]. split; [reflexivity|]. intros H. now destruct H.
  - destruct (draw_crosshair_within_limit (fst p) (snd p) self HM)
      as (Hr & _ & Hcount & _ & Hmax).
    destruct (draw_crosshair _ _ (fst p) (snd p) self) as [s r] eqn:Hrun.
    cbn [fst snd] in *. subst r.
    assert (Hstep : draw_crosshairs _ _ (p :: points) self
                    = draw_crosshairs _ _ points s).
    { unfold draw_crosshairs. cbn [PyE.for_each]. unfold PyE.bind.
      now rewrite Hrun. }
    rewrite Hstep.
    destruct (IH s) as (Hr' & Hmax' & Hcount'); [lia|].
    split; [exact Hr'|].
    split; [etransitivity; [exact Hmax' | exact Hmax]|]. intros _.
    destruct points as [|q points].
    + simpl. rewrite Hcount. lia.
    + assert (Hlim : crosshair_limit _ _ s = crosshair_limit _ _ self)
        by (unfold crosshair_limit; now rewrite Hmax).
      rewrite <- Hlim. apply Hcount'. discriminate.
Qed.

(** X8: once [set_max_line_count(limit)] was called with a limit of at
    least 1, drawing crosshairs never raises and never leaves more than
    [limit] crosshairs on the plot, however many are drawn; after
    [set_max_crosshair_count(limit)] with a limit of at least 2, it never
    leaves more than [limit - 1]. *)
Theorem crosshair_count_stays_within_limit limit points self :
  points <> [] ->
  (1 <= limit ->
   snd (PyE.bind (set_max_line_count _ _ limit)
          (fun _ => draw_crosshairs _ _ points) self) = inr tt
   /\ crosshair_count _ _
        (fst (PyE.bind (set_max_line_count _ _ limit)
                (fun _ => draw_crosshairs _ _ points) self)) <= limit)
  /\ (2 <= limit ->
      snd (PyE.bind (set_max_crosshair_count _ _ limit)
             (fun _ => draw_crosshairs _ _ points) self) = inr tt
      /\ crosshair_count _ _
           (fst (PyE.bind (set_max_crosshair_count _ _ limit)
                   (fun _ => draw_crosshairs _ _ points) self)) <= limit - 1).
Proof.
  intros Hpoints. split; intros Hlimit.
  - unfold PyE.bind, set_max_line_count, PyE.modify.
    destruct (draw_crosshairs_within_limit points
                (with_max_crosshairs _ _ (limit + 1) self))
      as (Hr & _ & Hcount); [cbn; lia|].
    split; [exact Hr|]. specialize (Hcount Hpoints).
    unfold crosshair_limit, or_default in Hcount. cbn in Hcount.
    destruct (Z.eqb_spec (limit + 1 - 1) 0); lia.
  - unfold PyE.bind, set_max_crosshair_count, PyE.modify.
    destruct (draw_crosshairs_within_limit points
                (with_max_crosshairs _ _ limit self))
      as (Hr & _ & Hcount); [cbn; lia|].
    split; [exact Hr|]. specialize (Hcount Hpoints).
    unfold crosshair_limit, or_default in Hcount. cbn in Hcount.
    destruct (Z.eqb_spec (limit - 1) 0); lia.
Qed.

(** *** Listeners and zooming *)

Lemma list_remove_absent (x : nat) (l : list nat) :
  x ∉ l -> list_remove x l = None.
Proof.
  induction l as [|y l IH]; intros Hx; [reflexivity|].
  apply not_elem_of_cons in Hx as [Hne Hx]. simpl.
  destruct (Nat.eqb_spec y x); [congruence|]. now rewrite IH.
Qed.

Lemma list_remove_first (x : nat) (before after : list nat) :
  x ∉ before -> list_remove x (before ++ x :: after) = Some (before ++ after).
Proof.
  induction before as [|y before IH]; intros Hx; simpl.
  - now rewrite Nat.eqb_refl.
  - apply not_elem_of_cons in Hx as [Hne Hx].
    destruct (Nat.eqb_spec y x); [congruence|]. now rewrite IH.
Qed.

(** X9: [remove_zoom_listener] undoes [add_zoom_listener] for a listener
    that was not registered before; for a listener that is not
    registered it raises [ValueError] and changes nothing; for one that
    is, it removes its first registration only. *)
Theorem zoom_listener_round_trip func self :
  (func ∉ zoom_listeners _ _ self ->
   PyE.bind (add_zoom_listener _ _ func)
     (fun _ => remove_zoom_listener _ _ func) self = (self, inr tt))
  /\ (func ∉ zoom_listeners _ _ self ->
      remove_zoom_listener _ _ func self = (self, inl ValueError))
  /\ (forall before after,
        zoom_listeners _ _ self = before ++ func :: after ->
        func ∉ before ->
        remove_zoom_listener _ _ func self
        = (with_zoom_listeners _ _ (before ++ after) self, inr tt)).
Proof.
  split; [|split].
  - intros Hx. unfold PyE.bind, add_zoom_listener, PyE.modify,
      remove_zoom_listener. cbn.
    rewrite (list_remove_first func (zoom_listeners _ _ self) [] Hx).
    rewrite app_nil_r. destruct self; reflexivity.
  - intros Hx. unfold remove_zoom_listener. now rewrite list_remove_absent.
  - intros before after Hl Hx. unfold remove_zoom_listener.
    now rewrite Hl, list_remove_first.
Qed.

Lemma widget_bind_modify {B} (f : Widget Coord Rect -> Widget Coord Rect)
    (k : unit -> W Coord Rect B) self :
  PyE.bind (PyE.modify f) k self = k tt (f self).
Proof. reflexivity. Qed.

Lemma widget_bind_call {B} (c : Call Coord Rect) (k : unit -> W Coord Rect B) self :
  PyE.bind (call _ _ c) k self
  = k tt (with_calls _ _ (calls _ _ self ++ [c]) self).
Proof. reflexivity. Qed.

Lemma widget_bind_get {B} (k : Widget Coord Rect -> W Coord Rect B) self :
  PyE.bind PyE.get k self = k self self.
Proof. reflexivity. Qed.

Lemma widget_bind_ret {A B} (a : A) (k : A -> W Coord Rect B) self :
  PyE.bind (PyE.ret a) k self = k a self.
Proof. reflexivity. Qed.

Lemma widget_bind_assoc {A B C} (m : W Coord Rect A) (f : A -> W Coord Rect B)
    (k : B -> W Coord Rect C) self :
  PyE.bind (PyE.bind m f) k self
  = PyE.bind m (fun a => PyE.bind (f a) k) self.
Proof. unfold PyE.bind. now destruct (m self) as [s [e|a]]. Qed.

Lemma widget_bind_notify {A B} (c : A -> Call Coord Rect) (xs : list A)
    (k : unit -> W Coord Rect B) self :
  PyE.bind (PyE.for_each xs (fun f => call _ _ (c f))) k self
  = k tt (with_calls _ _ (calls _ _ self ++ map c xs) self).
Proof. unfold PyE.bind. now rewrite notify_run. Qed.

End Crosshairs.

Section Zooming.

Context {Coord Rect : Type}.
Variable truth : Coord -> bool.
Variable Rect2 : Coord -> Coord -> Rect.
Variable rect_x1 rect_x2 rect_y1 rect_y2 : Rect -> Coord.
Variable set_xlim set_ylim :
  Widget Coord Rect -> Coord -> Coord -> widget_exn + (Coord * Coord).

Implicit Types (self : Widget Coord Rect).

Lemma widget_bind_set_xlim {B} a b (k : unit -> W Coord Rect B) self :
  PyE.bind (axes_set_xlim _ _ set_xlim a b) k self
  = match set_xlim self a b with
    | inr lim => k tt (with_axes_xlim _ _ lim self)
    | inl e => (self, inl e)
    end.
Proof. unfold PyE.bind, axes_set_xlim. now destruct (set_xlim self a b). Qed.

Lemma widget_bind_set_ylim {B} a b (k : unit -> W Coord Rect B) self :
  PyE.bind (axes_set_ylim _ _ set_ylim a b) k self
  = match set_ylim self a b with
    | inr lim => k tt (with_axes_ylim _ _ lim self)
    | inl e => (self, inl e)
    end.
Proof. unfold PyE.bind, axes_set_ylim. now destruct (set_ylim self a b). Qed.

Lemma zoom_to_xlim_raises r save_state trigger_listeners self e :
  set_xlim self (rect_x1 r) (rect_x2 r) = inl e ->
  zoom_to _ _ rect_x1 rect_x2 rect_y1 rect_y2 set_xlim set_ylim r save_state
    trigger_listeners self
  = (self, inl e).
Proof. intros Hx. unfold zoom_to. now rewrite widget_bind_set_xlim, Hx. Qed.

Lemma zoom_to_ylim_raises r save_state trigger_listeners self xlim e :
  set_xlim self (rect_x1 r) (rect_x2 r) = inr xlim ->
  set_ylim (with_axes_xlim _ _ xlim self) (rect_y1 r) (rect_y2 r) = inl e ->
  zoom_to _ _ rect_x1 rect_x2 rect_y1 rect_y2 set_xlim set_ylim r save_state
    trigger_listeners self
  = (with_axes_xlim _ _ xlim self, inl e).
Proof.
  intros Hx Hy. unfold zoom_to.
  now rewrite widget_bind_set_xlim, Hx, widget_bind_set_ylim, Hy.
Qed.

Lemma zoom_to_run r save_state trigger_listeners self xlim ylim :
  set_xlim self (rect_x1 r) (rect_x2 r) = inr xlim ->
  set_ylim (with_axes_xlim _ _ xlim self) (rect_y1 r) (rect_y2 r) = inr ylim ->
  zoom_to _ _ rect_x1 rect_x2 rect_y1 rect_y2 set_xlim set_ylim r save_state
    trigger_listeners self
  = (zoomed _ _ r xlim ylim save_state trigger_listeners self, inr tt).
Proof.
  intros Hx Hy. unfold zoom_to, update, PyE.when.
  rewrite widget_bind_set_xlim, Hx, widget_bind_set_ylim, Hy.
  clear Hx Hy.
  rewrite widget_bind_assoc, !widget_bind_call.
  destruct trigger_listeners.
  - rewrite widget_bind_assoc, widget_bind_get, widget_bind_notify.
    destruct save_state; unfold call, PyE.modify, PyE.ret, zoomed;
      destruct self; cbn; rewrite <- ?app_assoc, ?app_nil_r; reflexivity.
  - rewrite widget_bind_ret.
    destruct save_state; unfold call, PyE.modify, PyE.ret, zoomed;
      destruct self; cbn; rewrite <- ?app_assoc, ?app_nil_r; reflexivity.
Qed.

(** X10: [zoom_to(rect, save_state, trigger_listeners)] first asks
    matplotlib for the limits of the rectangle, x before y. When
    matplotlib raises for the x limits, [zoom_to] raises with the widget
    untouched; when it raises for the y limits, the x limits of the axes
    have already changed; in both cases nothing is redrawn, no listener
    is called and nothing is pushed on the toolbar. When both calls
    return, the axes have the limits that matplotlib set, which need not
    be those of the rectangle; the plot is redrawn, then every zoom
    listener is called exactly once with the rectangle passed in, in the
    order of registration, when [trigger_listeners] is set and none
    otherwise, and the state is pushed on the toolbar last, when
    [save_state] is set. The listeners and the crosshairs are left as
    they were. *)
Theorem zoom_to_notifies_in_order r save_state trigger_listeners self :
  let run :=
    zoom_to _ _ rect_x1 rect_x2 rect_y1 rect_y2 set_xlim set_ylim r save_state
      trigger_listeners self in
  (forall e,
      set_xlim self (rect_x1 r) (rect_x2 r) = inl e ->
      run = (self, inl e))
  /\ (forall xlim e,
        set_xlim self (rect_x1 r) (rect_x2 r) = inr xlim ->
        set_ylim (with_axes_xlim _ _ xlim self) (rect_y1 r) (rect_y2 r) = inl e ->
        run = (with_axes_xlim _ _ xlim self, inl e))
  /\ (forall xlim ylim,
        set_xlim self (rect_x1 r) (rect_x2 r) = inr xlim ->
        set_ylim (with_axes_xlim _ _ xlim self) (rect_y1 r) (rect_y2 r) = inr ylim ->
        snd run = inr tt
        /\ axes_xlim _ _ (fst run) = xlim
        /\ axes_ylim _ _ (fst run) = ylim
        /\ calls _ _ (fst run)
           = calls _ _ self
             ++ [QWidgetUpdate _ _; CanvasDraw _ _]
             ++ (if trigger_listeners
                 then map (fun f => ZoomListener _ _ f r) (zoom_listeners _ _ self)
                 else [])
             ++ (if save_state then [ToolbarPushCurrent _ _] else [])
        /\ zoom_listeners _ _ (fst run) = zoom_listeners _ _ self
        /\ temp_lines _ _ (fst run) = temp_lines _ _ self).
Proof.
  cbv zeta. split; [|split].
  - intros e Hx. now apply zoom_to_xlim_raises.
  - intros xlim e Hx Hy. now apply zoom_to_ylim_raises.
  - intros xlim ylim Hx Hy. rewrite (zoom_to_run _ _ _ _ xlim ylim Hx Hy).
    cbn. repeat split; reflexivity.
Qed.

(** *** Mouse events *)

(** X11: a click or a release is ignored altogether (no rectangle, no
    crosshair, no zoom, no redraw, the widget is left as it was) when the
    button is not the left one, when the event has no data coordinates,
    and also when the x or the y coordinate is false as a Python
    condition, which is the case of the float zero. *)
Theorem mouse_event_ignored event self :
  button _ event <> LEFT
  \/ xdata _ event = None
  \/ ydata _ event = None
  \/ (exists x, xdata _ event = Some x /\ truth x = false)
  \/ (exists y, ydata _ event = Some y /\ truth y = false) ->
  on_click _ _ truth Rect2 event self = (self, inr tt)
  /\ on_release _ _ truth rect_x1 rect_x2 rect_y1 rect_y2 set_xlim set_ylim
       event self
     = (self, inr tt).
Proof.
  intros Hcase. unfold on_click, on_release.
  destruct (button _ event) eqn:Hb; try (split; reflexivity).
  assert (Hnone : both_true _ truth (xdata _ event) (ydata _ event) = None).
  { unfold both_true.
    destruct Hcase as [H | [H | [H | [(x & H & Hx) | (y & H & Hy)]]]].
    - congruence.
    - now rewrite H.
    - rewrite H. now destruct (xdata _ event).
    - rewrite H, Hx. now destruct (ydata _ event).
    - rewrite H, Hy. destruct (xdata _ event); [|reflexivity].
      now rewrite andb_false_r. }
  rewrite Hnone. split; reflexivity.
Qed.

(** X12: [on_release] switches [show_crosshair] off exactly when it acts
    upon the event and at least two plots are selected, and nothing in
    it switches it back on: after the call, also when removing the
    temporary rectangle raised, [show_crosshair] holds only if it held
    before and the event was ignored or fewer than two plots were
    selected. The one exception is a release whose zoom matplotlib
    refuses: the exception leaves [on_release] before the test, and
    [show_crosshair] is what it was. *)
Theorem on_release_hides_crosshair event self :
  show_crosshair _ _
    (fst (on_release _ _ truth rect_x1 rect_x2 rect_y1 rect_y2 set_xlim
            set_ylim event self))
  = show_crosshair _ _ self
    && negb (acted_upon _ truth event
             && negb (zoom_refused _ _ rect_x1 rect_x2 rect_y1 rect_y2
                        set_xlim set_ylim self)
             && (2 <=? length (selected_plots _ _ self))%nat).
Proof.
  unfold on_release, acted_upon.
  destruct (is_left (button _ event));
    [|cbn; now rewrite andb_true_r].
  destruct (both_true _ truth (xdata _ event) (ydata _ event)) as [[x y]|];
    [|cbn; now rewrite andb_true_r].
  rewrite widget_bind_get.
  assert (Hrest : forall s : Widget Coord Rect,
             selected_plots _ _ s = selected_plots _ _ self ->
             show_crosshair _ _ s = show_crosshair _ _ self ->
             show_crosshair _ _
               (fst (PyE.bind PyE.get
                       (fun self0 =>
                          PyE.bind
                            (PyE.when (show_crosshair _ _ self0)
                               (PyE.when
                                  (2 <=? length (selected_plots _ _ self0))%nat
                                  (PyE.modify (with_show_crosshair _ _ false))))
                            (fun _ => PyE.bind (pre_update _ _)
                                        (fun _ => update _ _))) s))
             = show_crosshair _ _ self
               && negb (2 <=? length (selected_plots _ _ self))%nat).
  { intros s Hsel Hshow. rewrite widget_bind_get, Hsel, Hshow.
    unfold pre_update, remove_temp, remove_temp_rectangle, artist_remove,
      update, call, PyE.when, PyE.bind, PyE.get, PyE.modify, PyE.raise, PyE.ret.
    destruct (show_crosshair _ _ self) eqn:Hs;
      destruct (2 <=? length (selected_plots _ _ self))%nat;
      cbn; destruct (temp_patch _ _ s); cbn;
      try case_bool_decide; cbn; congruence. }
  unfold zoom_refused.
  destruct (mouse_zoom_enabled _ _ self), (rect _ _ self) as [r|];
    rewrite ?widget_bind_ret, ?widget_bind_assoc;
    try (cbn [andb negb]; apply Hrest; reflexivity).
  unfold PyE.bind at 1.
  destruct (set_xlim self (rect_x1 r) (rect_x2 r)) as [e|xlim] eqn:Hx.
  { rewrite (zoom_to_xlim_raises _ _ _ _ e Hx). cbn.
    now rewrite andb_true_r. }
  destruct (set_ylim (with_axes_xlim _ _ xlim self) (rect_y1 r) (rect_y2 r))
    as [e|ylim] eqn:Hy.
  { rewrite (zoom_to_ylim_raises _ _ _ _ xlim e Hx Hy). cbn.
    now rewrite andb_true_r. }
  rewrite (zoom_to_run _ _ _ _ xlim ylim Hx Hy). rewrite widget_bind_modify.
  cbn [andb negb]. apply Hrest; reflexivity.
Qed.

Lemma update_run self :
  update _ _ self
  = (with_calls _ _ (calls _ _ self ++ [QWidgetUpdate _ _; CanvasDraw _ _]) self,
     inr tt).
Proof.
  unfold update. rewrite widget_bind_call. unfold call, PyE.modify.
  destruct self; cbn. now rewrite <- app_assoc.
Qed.

Lemma pre_update_no_patch self :
  temp_patch _ _ self = None -> pre_update _ _ self = (self, inr tt).
Proof.
  intros H. unfold pre_update, remove_temp, remove_temp_rectangle.
  rewrite widget_bind_get. now rewrite H.
Qed.

(** X18: a left click at a point with both coordinates true, on a widget
    with click crosshairs enabled, mouse zoom disabled, no temporary
    rectangle and [max_crosshairs] at least 1, draws the crosshair and
    then redraws once: the crosshair listeners are called first, the
    widget update and the canvas draw come last, and the number of
    crosshairs is the one that [draw_crosshair] leaves. *)
Theorem on_click_draws_crosshair event x y self :
  button _ event = LEFT ->
  xdata _ event = Some x -> ydata _ event = Some y ->
  truth x = true -> truth y = true ->
  click_crosshair_enabled _ _ self = true ->
  mouse_zoom_enabled _ _ self = false ->
  temp_patch _ _ self = None ->
  1 <= max_crosshairs _ _ self ->
  snd (on_click _ _ truth Rect2 event self) = inr tt
  /\ calls _ _ (fst (on_click _ _ truth Rect2 event self))
     = calls _ _ self
       ++ map (fun f => CrosshairListener _ _ f x y) (crosshair_listeners _ _ self)
       ++ [QWidgetUpdate _ _; CanvasDraw _ _]
  /\ crosshair_count _ _ (fst (on_click _ _ truth Rect2 event self))
     = Z.min (crosshair_count _ _ self + 1) (crosshair_limit _ _ self)
  /\ rect _ _ (fst (on_click _ _ truth Rect2 event self)) = rect _ _ self.
Proof.
  intros Hb Hx Hy Tx Ty Hcc Hmz Hpatch HM.
  destruct (draw_crosshair_within_limit x y self HM) as (_ & _ & Hcount & _).
  destruct (draw_crosshair_state x y self HM) as (k & Hdraw).
  rewrite Hdraw in Hcount. cbn [fst] in Hcount.
  set (s1 := with_calls _ _ _ _) in *.
  assert (Hrun : on_click _ _ truth Rect2 event self
                 = (with_calls _ _
                      (calls _ _ s1 ++ [QWidgetUpdate _ _; CanvasDraw _ _]) s1,
                    inr tt)).
  { unfold on_click. rewrite Hb, Hx, Hy. cbn [is_left both_true].
    rewrite Tx, Ty. cbn [andb].
    rewrite widget_bind_get, Hmz. cbn [PyE.when]. rewrite widget_bind_ret, widget_bind_get, Hcc.
    cbn [PyE.when]. unfold PyE.bind. rewrite Hdraw.
    rewrite pre_update_no_patch by (subst s1; cbn; exact Hpatch).
    apply update_run. }
  rewrite Hrun. cbn [fst snd].
  split; [reflexivity|]. split; [subst s1; cbn; now rewrite <- app_assoc|].
  split; [exact Hcount | reflexivity].
Qed.

(** X19: a left release at a point with both coordinates true, with
    mouse zoom enabled, a rectangle pending, no temporary rectangle
    drawn and matplotlib accepting the limits of the rectangle, zooms
    with listeners and toolbar, forgets the rectangle, and redraws a
    second time: the limits of the axes are those that matplotlib set
    for the rectangle, [rect] is [None], and the calls are a redraw,
    the zoom listeners in order, each with the rectangle, the toolbar
    push and a second redraw. *)
Theorem on_release_zooms event x y r xlim ylim self :
  button _ event = LEFT ->
  xdata _ event = Some x -> ydata _ event = Some y ->
  truth x = true -> truth y = true ->
  mouse_zoom_enabled _ _ self = true ->
  rect _ _ self = Some r ->
  temp_patch _ _ self = None ->
  set_xlim self (rect_x1 r) (rect_x2 r) = inr xlim ->
  set_ylim (with_axes_xlim _ _ xlim self) (rect_y1 r) (rect_y2 r) = inr ylim ->
  let self' :=
    fst (on_release _ _ truth rect_x1 rect_x2 rect_y1 rect_y2 set_xlim
           set_ylim event self) in
  snd (on_release _ _ truth rect_x1 rect_x2 rect_y1 rect_y2 set_xlim set_ylim
         event self) = inr tt
  /\ rect _ _ self' = None
  /\ axes_xlim _ _ self' = xlim
  /\ axes_ylim _ _ self' = ylim
  /\ calls _ _ self'
     = calls _ _ self
       ++ [QWidgetUpdate _ _; CanvasDraw _ _]
       ++ map (fun f => ZoomListener _ _ f r) (zoom_listeners _ _ self)
       ++ [ToolbarPushCurrent _ _; QWidgetUpdate _ _; CanvasDraw _ _].
Proof.
  intros Hb Hx Hy Tx Ty Hmz Hrect Hpatch Hxlim Hylim self'. subst self'.
  assert (Hrun : exists s2,
             on_release _ _ truth rect_x1 rect_x2 rect_y1 rect_y2 set_xlim
               set_ylim event self
             = (with_calls _ _
                  (calls _ _ s2 ++ [QWidgetUpdate _ _; CanvasDraw _ _]) s2,
                inr tt)
             /\ rect _ _ s2 = None
             /\ axes_xlim _ _ s2 = xlim
             /\ axes_ylim _ _ s2 = ylim
             /\ calls _ _ s2
                = calls _ _ self
                  ++ [QWidgetUpdate _ _; CanvasDraw _ _]
                  ++ map (fun f => ZoomListener _ _ f r) (zoom_listeners _ _ self)
                  ++ [ToolbarPushCurrent _ _]).
  { unfold on_release. rewrite Hb, Hx, Hy. cbn [is_left both_true].
    rewrite Tx, Ty. cbn [andb].
    rewrite widget_bind_get, Hmz, Hrect.
    rewrite !widget_bind_assoc. unfold PyE.bind at 1.
    rewrite (zoom_to_run _ _ _ _ xlim ylim Hxlim Hylim).
    rewrite widget_bind_modify, widget_bind_get.
    unfold PyE.when.
    destruct (show_crosshair _ _ _); [destruct (2 <=? _)%nat|];
      rewrite ?widget_bind_modify, ?widget_bind_ret;
      unfold PyE.bind;
      (rewrite pre_update_no_patch by (cbn; exact Hpatch));
      rewrite update_run; eexists; (split; [reflexivity|]);
      cbn; repeat split; reflexivity. }
  destruct Hrun as (s2 & -> & H1 & H2 & H3 & H4). cbn [fst snd].
  split; [reflexivity|]. split; [exact H1|]. split; [exact H2|].
  split; [exact H3|]. cbn. rewrite H4. now rewrite <- !app_assoc.
Qed.

End Zooming.

Lemma on_click_draws_crosshair_witness :
  snd (on_click Z (Z * Z * Z * Z) MoreInputs.truth MoreInputs.rect2
         MoreInputs.left_click (MoreInputs.widget 3)) = inr tt
  /\ calls _ _
       (fst (on_click Z (Z * Z * Z * Z) MoreInputs.truth MoreInputs.rect2
               MoreInputs.left_click (MoreInputs.widget 3)))
     = [CrosshairListener _ _ 7 9 8; CrosshairListener _ _ 8 9 8;
        QWidgetUpdate _ _; CanvasDraw _ _].
Proof.
  destruct (on_click_draws_crosshair MoreInputs.truth MoreInputs.rect2
              MoreInputs.left_click 9 8 (MoreInputs.widget 3))
    as (Hr & Hcalls & _); try reflexivity.
  - cbn. lia.
  - split; [exact Hr | exact Hcalls].
Defined.

Lemma on_release_zooms_witness :
  axes_xlim _ _
    (fst (on_release Z (Z * Z * Z * Z) MoreInputs.truth MoreInputs.rect_x1
            MoreInputs.rect_x2 MoreInputs.rect_y1 MoreInputs.rect_y2
            MoreInputs.set_lim MoreInputs.set_lim
            MoreInputs.left_click MoreInputs.clicked_widget)) = (8, 10)
  /\ rect _ _
       (fst (on_release Z (Z * Z * Z * Z) MoreInputs.truth MoreInputs.rect_x1
               MoreInputs.rect_x2 MoreInputs.rect_y1 MoreInputs.rect_y2
               MoreInputs.set_lim MoreInputs.set_lim
               MoreInputs.left_click MoreInputs.clicked_widget)) = None.
Proof.
  destruct (on_release_zooms MoreInputs.truth MoreInputs.rect_x1
              MoreInputs.rect_x2 MoreInputs.rect_y1 MoreInputs.rect_y2
              MoreInputs.set_lim MoreInputs.set_lim
              MoreInputs.left_click 9 8 (9, 8, 9, 8) (8, 10) (7, 9)
              MoreInputs.clicked_widget)
    as (_ & Hrect & Hx & _); try reflexivity.
  split; [exact Hx | exact Hrect].
Defined.

Lemma zoom_to_notifies_in_order_witness :
  zoom_to Z (Z * Z * Z * Z) MoreInputs.rect_x1 MoreInputs.rect_x2
    MoreInputs.rect_y1 MoreInputs.rect_y2 MoreInputs.refuse_lim
    MoreInputs.refuse_lim (1, 2, 3, 4) true true (MoreInputs.widget 3)
  = (MoreInputs.widget 3, inl ValueError)
  /\ calls _ _
       (fst (zoom_to Z (Z * Z * Z * Z) MoreInputs.rect_x1 MoreInputs.rect_x2
               MoreInputs.rect_y1 MoreInputs.rect_y2 MoreInputs.set_lim
               MoreInputs.set_lim (1, 2, 3, 4) true true (MoreInputs.widget 3)))
     = [QWidgetUpdate _ _; CanvasDraw _ _; ZoomListener _ _ 5 (1, 2, 3, 4);
        ToolbarPushCurrent _ _].
Proof.
  split.
  - apply (proj1 (zoom_to_notifies_in_order MoreInputs.rect_x1
                    MoreInputs.rect_x2 MoreInputs.rect_y1 MoreInputs.rect_y2
                    MoreInputs.refuse_lim MoreInputs.refuse_lim (1, 2, 3, 4)
                    true true (MoreInputs.widget 3))).
    reflexivity.
  - destruct (zoom_to_notifies_in_order MoreInputs.rect_x1
                MoreInputs.rect_x2 MoreInputs.rect_y1 MoreInputs.rect_y2
                MoreInputs.set_lim MoreInputs.set_lim (1, 2, 3, 4)
                true true (MoreInputs.widget 3)) as (_ & _ & Hok).
    destruct (Hok (1, 3) (2, 4)) as (_ & _ & _ & Hcalls & _);
      [reflexivity | reflexivity | exact Hcalls].
Defined.

Lemma remove_crosshairs_keeps_newest_witness :
  snd (remove_crosshairs Z (Z * Z * Z * Z) false (Some 1) (MoreInputs.widget 3))
  = inr tt
  /\ crosshair_count _ _
       (fst (remove_crosshairs Z (Z * Z * Z * Z) false (Some 1)
               (MoreInputs.widget 3))) = 1.
Proof.
  destruct (remove_crosshairs_keeps_newest (MoreInputs.widget 3) (Some 1))
    as (Hr & _ & Hcount).
  - cbn. lia.
  - split; [exact Hr | exact Hcount].
Defined.

Lemma remove_crosshairs_negative_limit_witness :
  snd (remove_crosshairs Z (Z * Z * Z * Z) false (Some (-1))
         (MoreInputs.widget 3)) = inl IndexError.
Proof.
  destruct (remove_crosshairs_negative_limit (MoreInputs.widget 3) (Some (-1)))
    as (Hr & _).
  - cbn. lia.
  - exact Hr.
Defined.

Lemma draw_crosshair_within_limit_witness :
  snd (draw_crosshair Z (Z * Z * Z * Z) 9 8 (MoreInputs.widget 3)) = inr tt
  /\ crosshair_count _ _
       (fst (draw_crosshair Z (Z * Z * Z * Z) 9 8 (MoreInputs.widget 3))) = 2.
Proof.
  destruct (draw_crosshair_within_limit 9 8 (MoreInputs.widget 3))
    as (Hr & _ & Hcount & _).
  - cbn. lia.
  - split; [exact Hr | exact Hcount].
Defined.

Lemma draw_crosshair_without_limit_witness :
  snd (draw_crosshair Z (Z * Z * Z * Z) 9 8 (MoreInputs.widget 0))
  = inl IndexError.
Proof.
  destruct (draw_crosshair_without_limit 9 8 (MoreInputs.widget 0))
    as (Hr & _).
  - cbn. lia.
  - exact Hr.
Defined.

Lemma crosshair_count_stays_within_limit_witness :
  crosshair_count _ _
    (fst (PyE.bind (set_max_line_count Z (Z * Z * Z * Z) 1)
            (fun _ => draw_crosshairs _ _ [(1, 1); (2, 2); (3, 3)])
            (MoreInputs.widget 3))) <= 1.
Proof.
  destruct (crosshair_count_stays_within_limit 1 [(1, 1); (2, 2); (3, 3)]
              (MoreInputs.widget 3)) as [Hlines _].
  - discriminate.
  - destruct Hlines as [_ Hcount]; [lia | exact Hcount].
Defined.

Lemma zoom_listener_round_trip_witness :
  PyE.bind (add_zoom_listener Z (Z * Z * Z * Z) 6)
    (fun _ => remove_zoom_listener _ _ 6) (MoreInputs.widget 3)
  = (MoreInputs.widget 3, inr tt)
  /\ remove_zoom_listener Z (Z * Z * Z * Z) 6 (MoreInputs.widget 3)
     = (MoreInputs.widget 3, inl ValueError).
Proof.
  destruct (zoom_listener_round_trip 6 (MoreInputs.widget 3))
    as (Hadd & Habsent & _).
  split; [apply Hadd | apply Habsent]; decide_by_computation.
Defined.

Lemma mouse_event_ignored_witness :
  on_click Z (Z * Z * Z * Z) MoreInputs.truth MoreInputs.rect2
    MoreInputs.right_click (MoreInputs.widget 3)
  = (MoreInputs.widget 3, inr tt).
Proof.
  destruct (mouse_event_ignored MoreInputs.truth MoreInputs.rect2
              MoreInputs.rect_x1 MoreInputs.rect_x2 MoreInputs.rect_y1
              MoreInputs.rect_y2 MoreInputs.set_lim MoreInputs.set_lim
              MoreInputs.right_click (MoreInputs.widget 3))
    as [Hclick _].
  - left. discriminate.
  - exact Hclick.
Defined.

End Plot.


(** ** The compute functions: missing keys and what the engine receives *)

Module ComputeEdges.
Import Signals Workers.

Section Biphase.

Context {PyObj : Type}.
Variable tolist matlab_double complex_list real_parts imag_parts : PyObj -> PyObj.
Variable biphase_wav_new_calculate :
  PyObj -> PyObj -> PyObj -> PyObj -> list PyObj -> gmap string PyObj
  -> exn + (PyObj * PyObj).
Variable matlab_to_numpy : PyObj -> PyObj.
Variable reshape : PyObj -> PyObj -> PyObj.

Abbreviation biphase :=
  (_biphase tolist matlab_double complex_list real_parts imag_parts
     biphase_wav_new_calculate matlab_to_numpy reshape).

Abbreviation opt_marshalled :=
  (marshalled tolist matlab_double complex_list real_parts imag_parts).

Lemma bind_dict_get_missing {B} k
    (kont : PyObj -> Py.M (gmap string PyObj) B) (d : gmap string PyObj) :
  d !! k = None -> Py.bind (dict_get PyObj k) kont d = (d, inl KeyError).
Proof. intros H. unfold Py.bind, dict_get. now rewrite H. Qed.

(** X14: [_biphase] on a dict that lacks one of the four entries it
    reads raises [KeyError], and the entries read before the missing one
    have by then been converted in place: without [PadLR1] the dict is
    untouched; without [PadLR2], [PadLR1] is already rebound; without
    [twf1] or [twf2], both [PadLR1] and [PadLR2] are rebound, and neither
    [twf1] nor [twf2] has been deleted nor any key added. *)
Theorem biphase_missing_key sig1 sig2 fs f0 fr (opt : gmap string PyObj) :
  let biphase_run :=
    _biphase tolist matlab_double complex_list real_parts imag_parts
      biphase_wav_new_calculate matlab_to_numpy reshape
      sig1 sig2 fs f0 fr in
  (opt !! "PadLR1" = None ->
   biphase_run opt = (opt, inl KeyError))
  /\ (forall padlr1,
        opt !! "PadLR1" = Some padlr1 -> opt !! "PadLR2" = None ->
        biphase_run opt
        = (<["PadLR1" := matlab_double (tolist padlr1)]> opt, inl KeyError))
  /\ (forall padlr1 padlr2,
        opt !! "PadLR1" = Some padlr1 -> opt !! "PadLR2" = Some padlr2 ->
        opt !! "twf1" = None \/ opt !! "twf2" = None ->
        biphase_run opt
        = (<["PadLR2" := matlab_double (tolist padlr2)]>
             (<["PadLR1" := matlab_double (tolist padlr1)]> opt),
           inl KeyError)).
Proof.
  cbv zeta. split; [|split].
  - intros H1. unfold _biphase. cbn zeta.
    now rewrite bind_dict_get_missing.
  - intros padlr1 H1 H2. unfold _biphase. cbn zeta.
    rewrite (ComputeFunctions.bind_dict_get _ padlr1) by exact H1.
    rewrite ComputeFunctions.bind_dict_set.
    now rewrite bind_dict_get_missing by (now rewrite lookup_insert_ne).
  - intros padlr1 padlr2 H1 H2 H34. unfold _biphase. cbn zeta.
    rewrite (ComputeFunctions.bind_dict_get _ padlr1) by exact H1.
    rewrite ComputeFunctions.bind_dict_set.
    rewrite (ComputeFunctions.bind_dict_get _ padlr2)
      by (now rewrite lookup_insert_ne).
    rewrite ComputeFunctions.bind_dict_set.
    destruct (opt !! "twf1") as [twf1|] eqn:H3.
    + destruct H34 as [H4 | H4]; [discriminate|].
      rewrite (ComputeFunctions.bind_dict_get _ twf1)
        by (now rewrite !lookup_insert_ne).
      now rewrite bind_dict_get_missing by (now rewrite !lookup_insert_ne).
    + now rewrite bind_dict_get_missing by (now rewrite !lookup_insert_ne).
Qed.

Lemma biphase_marshals sig1 sig2 fs f0 fr opt padlr1 padlr2 twf1 twf2 :
  opt !! "PadLR1" = Some padlr1 ->
  opt !! "PadLR2" = Some padlr2 ->
  opt !! "twf1" = Some twf1 ->
  opt !! "twf2" = Some twf2 ->
    exists rest : gmap string PyObj -> Py.M (gmap string PyObj) (ResultTuple PyObj),
      biphase sig1 sig2 fs f0 fr opt
      = rest (opt_marshalled opt padlr1 padlr2 twf1 twf2)
          (opt_marshalled opt padlr1 padlr2 twf1 twf2)
      /\ rest
         = fun opt' =>
             (r1 <- Py.call (biphase_wav_new_calculate (tolist (signal sig1))
                               (tolist (signal sig1)) fs f0 fr opt') ;;
              r2 <- Py.call (biphase_wav_new_calculate (tolist (signal sig2))
                               (tolist (signal sig2)) fs f0 fr opt') ;;
              r3 <- Py.call (biphase_wav_new_calculate (tolist (signal sig1))
                               (tolist (signal sig2)) fs f0 fr opt') ;;
              r4 <- Py.call (biphase_wav_new_calculate (tolist (signal sig2))
                               (tolist (signal sig1)) fs f0 fr opt') ;;
              let l := matlab_to_numpy (fst r1) in
              Py.ret
                (EStr (name sig1) :: map EObj fr ++
                 [EObj (reshape l (matlab_to_numpy (fst r1)));
                  EObj (reshape l (matlab_to_numpy (snd r1)));
                  EObj (reshape l (matlab_to_numpy (fst r2)));
                  EObj (reshape l (matlab_to_numpy (snd r2)));
                  EObj (reshape l (matlab_to_numpy (fst r3)));
                  EObj (reshape l (matlab_to_numpy (snd r3)));
                  EObj (reshape l (matlab_to_numpy (fst r4)));
                  EObj (reshape l (matlab_to_numpy (snd r4)))]))%py.
Proof.
  intros H1 H2 H3 H4. eexists. split; [|reflexivity].
  unfold _biphase. cbn zeta.
  rewrite (ComputeFunctions.bind_dict_get _ padlr1) by exact H1.
  rewrite ComputeFunctions.bind_dict_set.
  rewrite (ComputeFunctions.bind_dict_get _ padlr2)
    by (now rewrite lookup_insert_ne).
  rewrite ComputeFunctions.bind_dict_set.
  rewrite (ComputeFunctions.bind_dict_get _ twf1)
    by (now rewrite !lookup_insert_ne).
  rewrite (ComputeFunctions.bind_dict_get _ twf2)
    by (now rewrite !lookup_insert_ne).
  rewrite (ComputeFunctions.bind_dict_del _ twf1)
    by (now rewrite !lookup_insert_ne).
  rewrite (ComputeFunctions.bind_dict_del _ twf2)
    by (now rewrite lookup_delete_ne, !lookup_insert_ne).
  rewrite !ComputeFunctions.bind_dict_set.
  reflexivity.
Qed.

Lemma biphase_reaches_engine sig1 sig2 fs f0 fr opt padlr1 padlr2 twf1 twf2 :
  opt !! "PadLR1" = Some padlr1 ->
  opt !! "PadLR2" = Some padlr2 ->
  opt !! "twf1" = Some twf1 ->
  opt !! "twf2" = Some twf2 ->
  fst (biphase sig1 sig2 fs f0 fr opt)
  = opt_marshalled opt padlr1 padlr2 twf1 twf2.
Proof.
  intros H1 H2 H3 H4.
  destruct (biphase_marshals sig1 sig2 fs f0 fr opt padlr1 padlr2 twf1 twf2
              H1 H2 H3 H4) as (rest & -> & ->).
  repeat (rewrite ComputeFunctions.bind_call;
          destruct (biphase_wav_new_calculate _ _ _ _ _ _); [reflexivity|]).
  reflexivity.
Qed.


End Biphase.

Section Moda.

Context {PyObj : Type}.
Variable initialize : exn + PyObj.
Variable matlab_double_of : PyObj -> PyObj.
Variable full_bayesian : PyObj -> list (PyVal PyObj) -> exn + list PyObj.

(** X16: [_moda_dynamic_bayesian_inference] returns normally exactly
    when the engine was initialised, both frequency ranges are given and
    the engine call returned; the call then had thirteen positional
    arguments, in the order sig1, sig2, the two bounds of the first
    range, the two bounds of the second, fs, window, propagation
    constant, overlap, order, surrogate count and confidence level, and
    the queue has received one tuple: the name of the first signal
    followed by the results of the engine, unchanged.  Whenever it
    raises, the queue is as it was. *)
Theorem moda_returns_iff_engine_returns signal1 signal2 params queue :
  let run :=
    _moda_dynamic_bayesian_inference initialize matlab_double_of
      full_bayesian signal1 signal2 params queue in
  (snd run = inr tt <->
   exists package a b c d result,
     initialize = inr package
     /\ freq_range1 params = Some (a, b)
     /\ freq_range2 params = Some (c, d)
     /\ full_bayesian package
          [Some (matlab_double_of (signal signal1));
           Some (matlab_double_of (signal signal2));
           Some a; Some b; Some c; Some d; Some (frequency signal1);
           window params; propagation_const params; overlap params;
           order params; surr_count params; confidence_level params]
        = inr result
     /\ fst run = queue ++ [EStr (name signal1) :: map EObj result])
  /\ (forall e, snd run = inl e -> fst run = queue).
Proof.
  cbv zeta. unfold _moda_dynamic_bayesian_inference.
  rewrite ComputeFunctions.bind_call.
  destruct initialize as [e0|package].
  { split; [split|reflexivity].
    - discriminate.
    - intros (? & ? & ? & ? & ? & ? & [=] & _). }
  rewrite ComputeFunctions.bind_iterate.
  destruct (freq_range1 params) as [[a b]|].
  2: { split; [split|reflexivity].
       - discriminate.
       - intros (? & ? & ? & ? & ? & ? & _ & [=] & _). }
  rewrite ComputeFunctions.bind_iterate.
  destruct (freq_range2 params) as [[c d]|].
  2: { split; [split|reflexivity].
       - discriminate.
       - intros (? & ? & ? & ? & ? & ? & _ & _ & [=] & _). }
  rewrite ComputeFunctions.bind_call. simpl.
  destruct (full_bayesian package _) as [e0|result] eqn:Hrun.
  - split; [split|reflexivity].
    + discriminate.
    + intros (? & ? & ? & ? & ? & ? & [= <-] & [= <- <-] & [= <- <-] & H & _).
      rewrite Hrun in H. discriminate.
  - split; [split|discriminate].
    + intros _. now exists package, a, b, c, d, result.
    + reflexivity.
Qed.

End Moda.

Lemma biphase_missing_key_witness :
  _biphase (fun x => x) (fun x => x + 100) (fun x => x) (fun x => x)
    (fun x => x) Inputs.engine_biphase (fun x => x) (fun _ x => x)
    (Inputs.sig "a") (Inputs.sig "b") 10 1 [5; 6] MoreInputs.opt_without_twf2
  = (<["PadLR2" := 102]> (<["PadLR1" := 101]> MoreInputs.opt_without_twf2),
     inl KeyError).
Proof.
  destruct (biphase_missing_key (fun x => x) (fun x => x + 100) (fun x => x)
              (fun x => x) (fun x => x) Inputs.engine_biphase (fun x => x)
              (fun _ x => x) (Inputs.sig "a") (Inputs.sig "b") 10 1 [5; 6]
              MoreInputs.opt_without_twf2) as (_ & _ & Htwf).
  apply (Htwf 1 2).
  - vm_compute. reflexivity.
  - vm_compute. reflexivity.
  - right. vm_compute. reflexivity.
Defined.


End ComputeEdges.


(** ** From bispectrum analysis to the biphase *)

Module BispectrumChain.
Import Signals Workers Bispectrum.

Section Chain.

Context {PyObj : Type}.
Variable differ : PyObj -> PyObj -> bool.
Variable truthy : PyObj -> bool.
Variable tolist : PyObj -> PyObj.
Variable halve : PyObj -> PyObj.
Variable nan one : PyObj.
Variable bispec_wav_new_calculate :
  PyObj -> PyObj -> PyObj -> gmap string PyObj -> exn + EngineOut PyObj.
Variable wav_surrogate_calculate : PyObj -> nat -> exn + PyObj.
Variable zeros : PyObj -> nat -> PyObj.
Variable empty : PyObj -> PyObj.
Variable fill_nan : PyObj -> PyObj.
Variable set_layer : PyObj -> nat -> PyObj -> PyObj.
Variable abs_ : PyObj -> PyObj.
Variable matlab_to_numpy : PyObj -> PyObj.
Variable avg_ampl_pow : PyObj -> PyObj * PyObj.
Variable square : PyObj -> PyObj.

Abbreviation body :=
  (bispectrum_analysis_body PyObj differ truthy tolist halve nan one
     bispec_wav_new_calculate wav_surrogate_calculate zeros empty fill_nan
     set_layer abs_ matlab_to_numpy avg_ampl_pow square).

Lemma convert_entry_returns k (d d' : gmap string PyObj) :
  convert_entry PyObj matlab_to_numpy k d tt = (tt, inr d') ->
  exists v, d !! k = Some v /\ d' = <[k := matlab_to_numpy v]> d.
Proof.
  unfold convert_entry. destruct (d !! k) as [v|]; [|discriminate].
  intros [= <-]. now exists v.
Qed.

(** The four conversions that close the function. *)
Lemma conversions_return (d d' : gmap string PyObj) :
  Py.bind (convert_entry PyObj matlab_to_numpy "PadLR1" d)
    (fun d1 => Py.bind (convert_entry PyObj matlab_to_numpy "PadLR2" d1)
    (fun d2 => Py.bind (convert_entry PyObj matlab_to_numpy "twf1" d2)
    (fun d3 => convert_entry PyObj matlab_to_numpy "twf2" d3))) tt
  = (tt, inr d') ->
  exists p1 p2 t1 t2,
    d !! "PadLR1" = Some p1 /\ d !! "PadLR2" = Some p2
    /\ d !! "twf1" = Some t1 /\ d !! "twf2" = Some t2
    /\ d' = <["twf2" := matlab_to_numpy t2]>
              (<["twf1" := matlab_to_numpy t1]>
                (<["PadLR2" := matlab_to_numpy p2]>
                  (<["PadLR1" := matlab_to_numpy p1]> d))).
Proof.
  unfold Py.bind.
  destruct (convert_entry _ _ "PadLR1" d tt) as [[] [e|d1]] eqn:E1;
    [discriminate|].
  destruct (convert_entry _ _ "PadLR2" d1 tt) as [[] [e|d2]] eqn:E2;
    [discriminate|].
  destruct (convert_entry _ _ "twf1" d2 tt) as [[] [e|d3]] eqn:E3;
    [discriminate|].
  intros E4.
  apply convert_entry_returns in E1 as (p1 & H1 & ->).
  apply convert_entry_returns in E2 as (p2 & H2 & ->).
  apply convert_entry_returns in E3 as (t1 & H3 & ->).
  apply convert_entry_returns in E4 as (t2 & H4 & ->).
  rewrite lookup_insert_ne in H2 by done.
  rewrite !lookup_insert_ne in H3 by done.
  rewrite !lookup_insert_ne in H4 by done.
  now exists p1, p2, t1, t2.
Qed.

(** X17: the tuple that [_bispectrum_analysis] returns starts with the
    name of the first signal, followed by seventeen arrays and by the
    dict [opt]; and whenever the function returns, that dict holds
    [PadLR1], [PadLR2], [twf1] and [twf2] (a missing one would have raised
    [KeyError] in the closing conversions), so [_biphase] called with it
    never stops at a missing key: it rewrites the dict in full and goes
    on to the engine. *)
Theorem bispectrum_result_feeds_biphase sig1 sig2 params n values opt :
  body sig1 sig2 params tt = (tt, inr (n, values, opt)) ->
  n = name sig1
  /\ length values = 17%nat
  /\ exists p1 p2 t1 t2,
       opt !! "PadLR1" = Some p1 /\ opt !! "PadLR2" = Some p2
       /\ opt !! "twf1" = Some t1 /\ opt !! "twf2" = Some t2
       /\ forall (tolist' matlab_double complex_list real_parts imag_parts
                    : PyObj -> PyObj)
                 biphase_wav_new_calculate matlab_to_numpy' reshape
                 s1 s2 fs f0 fr,
            fst (_biphase tolist' matlab_double complex_list real_parts
                   imag_parts biphase_wav_new_calculate matlab_to_numpy'
                   reshape s1 s2 fs f0 fr opt)
            = marshalled tolist' matlab_double complex_list real_parts
                imag_parts opt p1 p2 t1 t2.
Proof.
  unfold bispectrum_analysis_body. cbn zeta. unfold Py.bind at 1.
  match goal with
  | |- (match ?m with _ => _ end) = _ -> _ =>
      destruct m as [[] [e|r]] eqn:Hbranch; [discriminate|]
  end.
  intros Hrun.
  assert (Hlen : length (snd r) = 8%nat).
  { destruct (differ (signal sig1) (signal sig2)).
    - repeat (rewrite ComputeFunctions.bind_call in Hbranch;
              destruct (bispec_wav_new_calculate _ _ _ _) as [?|?]; [discriminate|]).
      unfold Py.bind at 1 in Hbranch.
      destruct (for_fold _ _ _ tt) as [[] [e'|surr]]; [discriminate|].
      injection Hbranch as <-. reflexivity.
    - rewrite ComputeFunctions.bind_call in Hbranch.
      destruct (bispec_wav_new_calculate _ _ _ _) as [?|?]; [discriminate|].
      unfold Py.bind at 1 in Hbranch.
      destruct (for_fold _ _ _ tt) as [[] [e'|surr]]; [discriminate|].
      injection Hbranch as <-. reflexivity. }
  clear Hbranch.
  assert (Hconv : exists d',
             Py.bind (convert_entry PyObj matlab_to_numpy "PadLR1"
                        (Bispectrum.opt _ (fst (fst r))))
               (fun d1 => Py.bind (convert_entry PyObj matlab_to_numpy "PadLR2" d1)
               (fun d2 => Py.bind (convert_entry PyObj matlab_to_numpy "twf1" d2)
               (fun d3 => convert_entry PyObj matlab_to_numpy "twf2" d3))) tt
             = (tt, inr d') /\ (n, values, opt)
               = (name sig1,
                  [matlab_to_numpy (freq _ (fst (fst r)));
                   amp_wt1 _ (fst (fst r));
                   square (amp_wt1 _ (fst (fst r)));
                   fst (avg_ampl_pow (amp_wt1 _ (fst (fst r))));
                   snd (avg_ampl_pow (amp_wt1 _ (fst (fst r))));
                   snd (fst r); square (snd (fst r));
                   fst (avg_ampl_pow (snd (fst r)));
                   snd (avg_ampl_pow (snd (fst r)))] ++ snd r, d')).
  { revert Hrun. unfold Py.bind.
    destruct (convert_entry _ _ "PadLR1" _ tt) as [[] [e|d1]]; [discriminate|].
    destruct (convert_entry _ _ "PadLR2" d1 tt) as [[] [e|d2]]; [discriminate|].
    destruct (convert_entry _ _ "twf1" d2 tt) as [[] [e|d3]]; [discriminate|].
    destruct (convert_entry _ _ "twf2" d3 tt) as [[] [e|d4]]; [discriminate|].
    unfold Py.ret. intros [= <- <- <-]. now exists d4. }
  destruct Hconv as (d' & Hconv & [= -> -> ->]).
  apply conversions_return in Hconv as (p1 & p2 & t1 & t2 & H1 & H2 & H3 & H4 & ->).
  split; [reflexivity|]. split; [simpl; now rewrite Hlen|].
  exists (matlab_to_numpy p1), (matlab_to_numpy p2),
    (matlab_to_numpy t1), (matlab_to_numpy t2).
  assert (K1 : forall d : gmap string PyObj,
             <["twf2" := matlab_to_numpy t2]>
               (<["twf1" := matlab_to_numpy t1]>
                 (<["PadLR2" := matlab_to_numpy p2]>
                   (<["PadLR1" := matlab_to_numpy p1]> d))) !! "PadLR1"
             = Some (matlab_to_numpy p1)) by (intros; now simplify_map_eq).
  assert (K2 : forall d : gmap string PyObj,
             <["twf2" := matlab_to_numpy t2]>
               (<["twf1" := matlab_to_numpy t1]>
                 (<["PadLR2" := matlab_to_numpy p2]>
                   (<["PadLR1" := matlab_to_numpy p1]> d))) !! "PadLR2"
             = Some (matlab_to_numpy p2)) by (intros; now simplify_map_eq).
  assert (K3 : forall d : gmap string PyObj,
             <["twf2" := matlab_to_numpy t2]>
               (<["twf1" := matlab_to_numpy t1]>
                 (<["PadLR2" := matlab_to_numpy p2]>
                   (<["PadLR1" := matlab_to_numpy p1]> d))) !! "twf1"
             = Some (matlab_to_numpy t1)) by (intros; now simplify_map_eq).
  assert (K4 : forall d : gmap string PyObj,
             <["twf2" := matlab_to_numpy t2]>
               (<["twf1" := matlab_to_numpy t1]>
                 (<["PadLR2" := matlab_to_numpy p2]>
                   (<["PadLR1" := matlab_to_numpy p1]> d))) !! "twf2"
             = Some (matlab_to_numpy t2)) by (intros; now simplify_map_eq).
  split; [apply K1|]. split; [apply K2|]. split; [apply K3|]. split; [apply K4|].
  intros. apply ComputeEdges.biphase_reaches_engine; auto.
Qed.

End Chain.

Lemma bispectrum_result_feeds_biphase_witness :
  match snd (MoreInputs.bispectrum_run (MoreInputs.signal_of "a" 5)
               (MoreInputs.signal_of "b" 6)) with
  | inr (n, values, _) => n = "a" /\ length values = 17%nat
  | inl _ => False
  end.
Proof.
  destruct (MoreInputs.bispectrum_run (MoreInputs.signal_of "a" 5)
              (MoreInputs.signal_of "b" 6))
    as [[] [e | [[n values] opt]]] eqn:Hrun.
  - vm_compute in Hrun. discriminate.
  - unfold MoreInputs.bispectrum_run in Hrun.
    destruct (bispectrum_result_feeds_biphase _ _ _ _ _ _ _ _ _ _ _ _ _ _ _ _
                _ _ _ _ _ _ Hrun) as (Hn & Hlen & _).
    split; [exact Hn | exact Hlen].
Defined.

End BispectrumChain.
